(** * Trade Tracker (app.py): trade form, portfolio valuation, snapshots, charts

    A shallow embedding of the Streamlit script [app.py].  The script is
    re-run from top to bottom on every interaction; one run is modelled as
    a function of the session state and of what the user entered in the
    widgets.  Python exceptions are values of an error monad, the objects
    [json.load] returns are a small inductive type, and the arithmetic is
    written once over an interface [Number] that is instantiated both by
    IEEE binary64 (Python's [float], the type the script computes with) and
    by the exact rationals (the decimal reading of the same formulas). *)

From Stdlib Require Import ZArith List String Bool Arith Lia.
From Stdlib Require Import Permutation Sorted.
From Stdlib Require Import QArith Qcanon.
From Stdlib Require Import PrimFloat.
From Stdlib Require Uint63.
Import ListNotations.
Close Scope Qc_scope.
Close Scope Q_scope.
Open Scope string_scope.
Open Scope nat_scope.
Open Scope list_scope.

(* ------------------------------------------------------------------ *)
(** ** Numbers *)

(** The operations the script applies to its numbers.  [of_int] is the
    conversion Python performs when an [int] literal meets a [float]. *)
Class Number (T : Type) : Type := {
  of_int : Z -> T;
  num_add : T -> T -> T;
  num_sub : T -> T -> T;
  num_mul : T -> T -> T;
  num_div : T -> T -> T;
  num_gt : T -> T -> bool;
  num_eq : T -> T -> bool
}.

Declare Scope num_scope.
Delimit Scope num_scope with num.
Infix "+" := num_add : num_scope.
Infix "-" := num_sub : num_scope.
Infix "*" := num_mul : num_scope.
Infix "/" := num_div : num_scope.
Infix ">?" := num_gt (at level 70, no associativity) : num_scope.

(** Python's [float]: binary64 with round-to-nearest-even, as the kernel's
    primitive floats compute it. *)
Definition float_of_int (z : Z) : PrimFloat.float :=
  match z with
  | Z0 => PrimFloat.zero
  | Zpos _ => PrimFloat.of_uint63 (Uint63.of_Z z)
  | Zneg p => PrimFloat.opp (PrimFloat.of_uint63 (Uint63.of_Z (Zpos p)))
  end.

#[export] Instance float64 : Number PrimFloat.float := {
  of_int := float_of_int;
  num_add := PrimFloat.add;
  num_sub := PrimFloat.sub;
  num_mul := PrimFloat.mul;
  num_div := PrimFloat.div;
  num_gt := fun x y => PrimFloat.ltb y x;
  num_eq := PrimFloat.eqb
}.

(** Exact arithmetic on canonical rationals. *)
Definition Qc_gt (x y : Qc) : bool :=
  match (x ?= y)%Qc with Gt => true | _ => false end.

#[export] Instance exact : Number Qc := {
  of_int := fun z => Q2Qc (inject_Z z);
  num_add := Qcplus;
  num_sub := Qcminus;
  num_mul := Qcmult;
  num_div := Qcdiv;
  num_gt := Qc_gt;
  num_eq := Qc_eq_bool
}.

(* ------------------------------------------------------------------ *)
(** ** Exceptions *)

Inductive exn : Type :=
| KeyError (key : string)
| TypeError
| ValueError
| JSONDecodeError
| StreamlitAPIException.

Inductive result (A : Type) : Type :=
| Ok (a : A)
| Raise (e : exn).
Arguments Ok {A} a.
Arguments Raise {A} e.

Definition bind {A B : Type} (c : result A) (k : A -> result B) : result B :=
  match c with
  | Ok a => k a
  | Raise e => Raise e
  end.

Declare Scope result_scope.
Delimit Scope result_scope with result.
Notation "x <- c ;; k" := (bind c (fun x => k))
  (at level 61, c at next level, right associativity) : result_scope.
Open Scope result_scope.

Section TradeTracker.

Context {T : Type} {N : Number T}.
Local Open Scope num_scope.

(* ------------------------------------------------------------------ *)
(** ** Python values *)

(** A Python number: the script mixes [int] literals with floats. *)
Inductive pynum : Type :=
| PyInt (z : Z)
| PyFloat (x : T).

(** What [json.load] can return, and what [json.dumps] accepts here. *)
#[local] Unset Elimination Schemes.
Inductive pyobj : Type :=
| PyNone
| PyBool (b : bool)
| PyNum (n : pynum)
| PyStr (s : string)
| PyList (l : list pyobj)
| PyDict (d : list (string * pyobj)).
#[local] Set Elimination Schemes.

(** [len(o)] *)
Definition py_len (o : pyobj) : result nat :=
  match o with
  | PyList l => Ok (List.length l)
  | PyDict d => Ok (List.length d)
  | PyStr s => Ok (String.length s)
  | _ => Raise TypeError
  end.

(** The elements a [for] over [o] yields: the items of a list, the keys of
    a dict, the characters of a string. *)
Definition py_iter (o : pyobj) : result (list pyobj) :=
  match o with
  | PyList l => Ok l
  | PyDict d => Ok (map (fun kv => PyStr (fst kv)) d)
  | PyStr s => Ok (map (fun c => PyStr (String c EmptyString)) (list_ascii_of_string s))
  | _ => Raise TypeError
  end.

Fixpoint dict_get (d : list (string * pyobj)) (key : string) : option pyobj :=
  match d with
  | [] => None
  | (k, v) :: d' => if String.eqb k key then Some v else dict_get d' key
  end.

(** [o[key]] for a string key: only a dict can be subscripted that way. *)
Definition py_getitem (o : pyobj) (key : string) : result pyobj :=
  match o with
  | PyDict d =>
      match dict_get d key with
      | Some v => Ok v
      | None => Raise (KeyError key)
      end
  | _ => Raise TypeError
  end.

(** [o == i] for an [int] [i] *)
Definition py_eq_int (o : pyobj) (i : nat) : bool :=
  match o with
  | PyNum (PyInt z) => Z.eqb z (Z.of_nat i)
  | PyNum (PyFloat x) => num_eq x (of_int (Z.of_nat i))
  | PyBool b => Z.eqb (if b then 1 else 0) (Z.of_nat i)
  | _ => false
  end.

(** [options.index(o)]: the first position holding a string equal to [o] *)
Fixpoint index_of (s : string) (options : list string) : option nat :=
  match options with
  | [] => None
  | x :: options' =>
      if String.eqb x s then Some 0
      else match index_of s options' with
           | Some k => Some (S k)
           | None => None
           end
  end.

Definition list_index (options : list string) (o : pyobj) : result nat :=
  match o with
  | PyStr s =>
      match index_of s options with
      | Some k => Ok k
      | None => Raise ValueError
      end
  | _ => Raise ValueError
  end.

(* ------------------------------------------------------------------ *)
(** ** Trade records *)

(** One dict of the list [trades], with the keys of lines 83-92
    ([Fee] is "Fee (%)", [ROI] is "ROI (%)", [Total_Return] is
    "Total Return"). *)
Record Row : Type := {
  Trade : nat;
  Buy : T;
  Sell : T;
  Fee : T;
  Profit : T;
  ROI : pynum;
  Total_Return : T;
  Color : string
}.

Definition row_to_py (t : Row) : pyobj :=
  PyDict [ ("Trade", PyNum (PyInt (Z.of_nat (Trade t))));
           ("Buy", PyNum (PyFloat (Buy t)));
           ("Sell", PyNum (PyFloat (Sell t)));
           ("Fee (%)", PyNum (PyFloat (Fee t)));
           ("Profit", PyNum (PyFloat (Profit t)));
           ("ROI (%)", PyNum (ROI t));
           ("Total Return", PyNum (PyFloat (Total_Return t)));
           ("Color", PyStr (Color t)) ].

Definition trades_to_py (trades : list Row) : pyobj :=
  PyList (map row_to_py trades).

(* ------------------------------------------------------------------ *)
(** ** Widgets *)

(** What the user did to the four widgets of one trade: a typed number or
    nothing, and the position picked in the colour list or nothing.  The
    four widgets are keyed ([buy_i], [sell_i], [fee_i], [color_i]): a
    widget drawn in the previous run still holds its value, and for the
    widget functions below a held value counts like a typed one
    ([browser] and [script_run] keep these values from one run to the
    next).  [None] is a widget that holds nothing: it is drawn for the
    first time. *)
Record entry : Type := {
  typed_buy : option T;
  typed_sell : option T;
  typed_fee : option T;
  picked_color : option nat
}.

Definition untouched : entry :=
  {| typed_buy := None; typed_sell := None; typed_fee := None;
     picked_color := None |}.

(** [st.number_input(..., min_value=0.0, value=value)]: a float widget
    refuses a default that is not a float; it returns what the user typed
    or the widget holds, and its default only when it holds nothing.  The
    widget's bounds are not modelled, and every refusal is one exception
    here. *)
Definition number_input (value : pyobj) (typed : option T) : result T :=
  match value with
  | PyNum (PyFloat x) =>
      Ok (match typed with Some v => v | None => x end)
  | _ => Raise StreamlitAPIException
  end.

(** [st.selectbox(label, options, index=index)]: the position picked or
    held, else [index]. *)
Definition selectbox (options : list string) (index : nat)
    (picked : option nat) : result string :=
  match nth_error options
          (match picked with Some k => k | None => index end) with
  | Some s => Ok s
  | None => Raise StreamlitAPIException
  end.

Definition colors : list string := ["default"; "red"; "blue"].

(* ------------------------------------------------------------------ *)
(** ** Tab 1, left column: the trade form (lines 29-95) *)

(** [next((t for t in prev_trades if t["Trade"] == i), None)] *)
Fixpoint first_match (l : list pyobj) (i : nat) : result (option pyobj) :=
  match l with
  | [] => Ok None
  | t :: l' =>
      v <- py_getitem t "Trade" ;;
      if py_eq_int v i then Ok (Some t) else first_match l' i
  end.

Definition find_prev (prev_trades : pyobj) (i : nat)
    : result (option pyobj) :=
  l <- py_iter prev_trades ;; first_match l i.

(** [prev[key] if prev else 0.0] *)
Definition default_value (prev : option pyobj) (key : string)
    : result pyobj :=
  match prev with
  | Some p => py_getitem p key
  | None => Ok (PyNum (PyFloat (of_int 0)))
  end.

(** [(colors.index(prev["Color"]) if prev else 0)] *)
Definition default_index (prev : option pyobj) : result nat :=
  match prev with
  | Some p => c <- py_getitem p "Color" ;; list_index colors c
  | None => Ok 0%nat
  end.

(** Lines 76-78. *)
Definition profit_of (buy_price sell_price fee : T) : T :=
  (sell_price - buy_price) - (sell_price * fee / of_int 100).

Definition roi_of (buy_price profit : T) : pynum :=
  if buy_price >? of_int 0
  then PyFloat (profit / buy_price * of_int 100)
  else PyInt 0.

Definition total_return_of (sell_price fee : T) : T :=
  sell_price - (sell_price * fee / of_int 100).

(** The variables the loop of line 49 updates. *)
Record form_state : Type := {
  trades : list Row;
  total_profit : T;
  total_investment : T
}.

Definition form_init : form_state :=
  {| trades := []; total_profit := of_int 0; total_investment := of_int 0 |}.

(** The body of the loop for trade number [i] (lines 50-92). *)
Definition form_body (prev_trades : pyobj) (ui : nat -> entry) (i : nat)
    (acc : form_state) : result form_state :=
  prev <- find_prev prev_trades i ;;
  value_buy <- default_value prev "Buy" ;;
  buy_price <- number_input value_buy (typed_buy (ui i)) ;;
  value_sell <- default_value prev "Sell" ;;
  sell_price <- number_input value_sell (typed_sell (ui i)) ;;
  value_fee <- default_value prev "Fee (%)" ;;
  fee <- number_input value_fee (typed_fee (ui i)) ;;
  index <- default_index prev ;;
  color <- selectbox colors index (picked_color (ui i)) ;;
  let profit := profit_of buy_price sell_price fee in
  let roi := roi_of buy_price profit in
  let total_return := total_return_of sell_price fee in
  Ok {| trades := trades acc ++
                  [ {| Trade := i; Buy := buy_price; Sell := sell_price;
                       Fee := fee; Profit := profit; ROI := roi;
                       Total_Return := total_return; Color := color |} ];
        total_profit := total_profit acc + profit;
        total_investment := total_investment acc + buy_price |}.

(** [for i in reversed(range(1, num_trades + 1))]: [i] runs from
    [num_trades] down to 1. *)
Fixpoint form_loop (prev_trades : pyobj) (ui : nat -> entry) (i : nat)
    (acc : form_state) : result form_state :=
  match i with
  | O => Ok acc
  | S i' =>
      acc' <- form_body prev_trades ui i acc ;;
      form_loop prev_trades ui i' acc'
  end.

(** [st.session_state]: the two keys the script itself writes.  The keys
    of the widgets are kept beside them, in [browser]. *)
Record session_state : Type := {
  loaded_trades : option pyobj;
  session_trades : option (list Row)
}.

(** [st.number_input(..., min_value=1, max_value=50, value=num_trades)]:
    what the user typed, or the default; the bounds are the widget's and
    are not modelled.  This widget has no key: it starts from its default
    again whenever that default changes. *)
Definition count_input (value : nat) (typed : option nat) : nat :=
  match typed with Some n => n | None => value end.

(** Lines 31-95: the form, and the list it leaves in the session. *)
Definition trade_form (ss : session_state) (typed_count : option nat)
    (ui : nat -> entry) : result (form_state * session_state) :=
  init <- match loaded_trades ss with
          | Some data => n <- py_len data ;; Ok (data, n)
          | None => Ok (PyList [], 1%nat)
          end ;;
  let prev_trades := fst init in
  let num_trades := count_input (snd init) typed_count in
  st <- form_loop prev_trades ui num_trades form_init ;;
  Ok (st, {| loaded_trades := loaded_trades ss;
             session_trades := Some (trades st) |}).

(* ------------------------------------------------------------------ *)
(** ** Tab 1, right column: the portfolio logic (lines 101-127) *)

(** The four variables of lines 102-105. *)
Record portfolio : Type := {
  portfolio_value : T;
  prev_portfolio : T;
  total_added_capital : T;
  initialized : bool
}.

Definition portfolio_init : portfolio :=
  {| portfolio_value := of_int 0; prev_portfolio := of_int 0;
     total_added_capital := of_int 0; initialized := false |}.

(** Line 111. *)
Definition net_result (t : Row) : T :=
  (Sell t - Buy t) - (Sell t * Fee t / of_int 100).

(** The body of the loop of line 107 for the record [t]: the branches of
    lines 113-123, then the assignment of line 124,
    [prev_portfolio = portfolio_value], which follows both. *)
Definition fold_step (s : portfolio) (t : Row) : portfolio :=
  let buy := Buy t in
  let s1 :=
    if negb (initialized s) then
      {| portfolio_value := buy + net_result t;
         prev_portfolio := buy;
         total_added_capital := total_added_capital s;
         initialized := true |}
    else if buy >? prev_portfolio s then
      let added_capital := buy - prev_portfolio s in
      {| portfolio_value :=
           prev_portfolio s - buy + net_result t + added_capital;
         prev_portfolio := prev_portfolio s;
         total_added_capital := total_added_capital s + added_capital;
         initialized := initialized s |}
    else
      let added_capital := of_int 0 in
      {| portfolio_value :=
           prev_portfolio s - buy + net_result t + added_capital;
         prev_portfolio := prev_portfolio s;
         total_added_capital := total_added_capital s;
         initialized := initialized s |} in
  {| portfolio_value := portfolio_value s1;
     prev_portfolio := portfolio_value s1;
     total_added_capital := total_added_capital s1;
     initialized := initialized s1 |}.

(** The records in the order [for t in reversed(trades)] visits them. *)
Definition visited (trades : list Row) : list Row := rev trades.

Definition portfolio_logic (trades : list Row) : portfolio :=
  fold_left fold_step (visited trades) portfolio_init.

(** [trades[-1]] *)
Definition last_trade (trades : list Row) : option Row :=
  match rev trades with
  | t :: _ => Some t
  | [] => None
  end.

(** Line 126. *)
Definition effective_invested (trades : list Row) : T :=
  (match last_trade trades with
   | Some t => Buy t
   | None => of_int 0
   end) + total_added_capital (portfolio_logic trades).

(** Line 127. *)
Definition total_roi (trades : list Row) : pynum :=
  if effective_invested trades >? of_int 0
  then PyFloat ((portfolio_value (portfolio_logic trades)
                   / effective_invested trades - of_int 1) * of_int 100)
  else PyInt 0.

(* ------------------------------------------------------------------ *)
(** ** Save and load (lines 12-18 and 137-149) *)

Inductive message : Type :=
| success
| error (e : exn).

Section Snapshot.

(** The text of a snapshot file, with [json.dumps] and [json.load]. *)
Variable snapshot : Type.
Variable json_dumps : pyobj -> snapshot.
Variable json_load : snapshot -> result pyobj.

(** Lines 137-144: the file the download button offers. *)
Definition save_trades (trades : list Row) : snapshot :=
  json_dumps (trades_to_py trades).

(** Lines 12-18. *)
Definition load_trades (uploaded_file : snapshot) (ss : session_state)
    : session_state * message :=
  match json_load uploaded_file with
  | Ok data =>
      ({| loaded_trades := Some data;
          session_trades := session_trades ss |}, success)
  | Raise e => (ss, error e)
  end.

End Snapshot.

(* ------------------------------------------------------------------ *)
(** ** Tab 2: tables and charts (lines 154-222) *)

(** [sort_values(by="Trade", ascending=True)]; the trade numbers of one
    form are distinct, so no order among equal keys is at stake. *)
Fixpoint insert_by_trade (t : Row) (df : list Row) : list Row :=
  match df with
  | [] => [t]
  | u :: df' =>
      if (Trade t <=? Trade u)%nat then t :: u :: df'
      else u :: insert_by_trade t df'
  end.

Fixpoint sort_values (df : list Row) : list Row :=
  match df with
  | [] => []
  | t :: df' => insert_by_trade t (sort_values df')
  end.

(** [df[df["Color"] == color]] *)
Definition with_color (color : string) (df : list Row) : list Row :=
  filter (fun t => String.eqb (Color t) color) df.

(** Line 162, then lines 192-193. *)
Definition overview_df (trades : list Row) : list Row := sort_values trades.
Definition red_df (trades : list Row) : list Row :=
  with_color "red" (overview_df trades).
Definition blue_df (trades : list Row) : list Row :=
  with_color "blue" (overview_df trades).

(** [Series.cumsum()]: the running sums, the first being the first value
    (a NaN entry, which pandas would skip, is not modelled). *)
Fixpoint running (acc : T) (xs : list T) : list T :=
  match xs with
  | [] => []
  | x :: xs' => (acc + x) :: running (acc + x) xs'
  end.

Definition cumsum (xs : list T) : list T :=
  match xs with
  | [] => []
  | x :: xs' => x :: running x xs'
  end.

(** Lines 179-180: the sorted subset with its new column
    "Portfolio Value". *)
Definition chart_df (df_subset : list Row) : list (Row * T) :=
  let sorted := sort_values df_subset in
  combine sorted
    (map (fun p => fst p + snd p)
       (combine (cumsum (map Buy sorted)) (cumsum (map Profit sorted)))).

(** Lines 181-186: the three series [show_charts] draws, each indexed by
    "Trade" (pandas stores the ROI column as floats; the int 0 of line 77
    is kept as it is here). *)
Definition show_charts (df_subset : list Row)
    : list (nat * T) * list (nat * T) * list (nat * pynum) :=
  let c := chart_df df_subset in
  (map (fun r => (Trade (fst r), Profit (fst r))) c,
   map (fun r => (Trade (fst r), snd r)) c,
   map (fun r => (Trade (fst r), ROI (fst r))) c).

(* ------------------------------------------------------------------ *)
(** ** Notions the statements below use *)

(** The three derived keys of a record are the formulas of lines 76-78
    applied to its own inputs. *)
Definition derived (r : Row) : Prop :=
  Profit r = profit_of (Buy r) (Sell r) (Fee r) /\
  ROI r = roi_of (Buy r) (Profit r) /\
  Total_Return r = total_return_of (Sell r) (Fee r).

(** The state the first visited record leaves behind: lines 114-116, then
    line 124. *)
Definition seed_state (r : Row) : portfolio :=
  {| portfolio_value := Buy r + net_result r;
     prev_portfolio := Buy r + net_result r;
     total_added_capital := of_int 0;
     initialized := true |}.

(** Ascending trade numbers. *)
Definition by_trade (a b : Row) : Prop := (Trade a <= Trade b)%nat.

(** The sum of a list, added from left to right starting at its first
    value (0 for no value at all). *)
Definition total (xs : list T) : T :=
  match xs with
  | [] => of_int 0
  | x :: xs' => fold_left num_add xs' x
  end.

(** A session that never loaded a snapshot. *)
Definition fresh_session : session_state :=
  {| loaded_trades := None; session_trades := None |}.

(** The user typed the three numbers and left the colour alone. *)
Definition typed (buy_price sell_price fee : T) : entry :=
  {| typed_buy := Some buy_price; typed_sell := Some sell_price;
     typed_fee := Some fee; picked_color := None |}.

End TradeTracker.

Arguments save_trades {T snapshot} json_dumps trades.
Arguments load_trades {T snapshot} json_load uploaded_file ss.


(* ------------------------------------------------------------------ *)
(** ** Concrete forms, in binary64 *)

(** Trade 1: buy 200, sell 0, fee 0.  Trade 2: buy 100, sell 150, fee 0. *)
Definition spec_two_trades (i : nat) : @entry float :=
  match i with
  | 1 => typed 200%float 0%float 0%float
  | _ => typed 100%float 150%float 0%float
  end.

(** Trade 1: buy 100, sell 100.  Trade 2: buy 50, sell 50.  No fee. *)
Definition shrinking_trades (i : nat) : @entry float :=
  match i with
  | 1 => typed 100%float 100%float 0%float
  | _ => typed 50%float 50%float 0%float
  end.

(** Trade 1: all zero.  Trade 2: buy 2^53, sell 2^53 - 1, no fee. *)
Definition absorbing_trades (i : nat) : @entry float :=
  match i with
  | 1 => typed 0%float 0%float 0%float
  | _ => typed 9007199254740992%float 9007199254740991%float 0%float
  end.

(** A price given in cents: the float Python reads from the decimal. *)
Definition cents (n : Z) : float := (float_of_int n / 100)%float.

(** Trade 1: buy 47.84, sell 15.15.  Trade 2: buy 418.05, sell 216.95.
    No fee. *)
Definition everyday_trades (i : nat) : @entry float :=
  match i with
  | 1 => typed (cents 4784) (cents 1515) 0%float
  | _ => typed (cents 41805) (cents 21695) 0%float
  end.

(** Nothing typed, nothing picked. *)
Definition untouched_form (i : nat) : @entry float := untouched.

(** ** A concrete step, in exact arithmetic *)

(** The state after a first trade bought and sold at 1. *)
Definition exact_state : @portfolio Qc :=
  {| portfolio_value := of_int 1; prev_portfolio := of_int 1;
     total_added_capital := of_int 0; initialized := true |}.

(** A trade bought at 3 and sold at 5 with a fee of 10 %. *)
Definition exact_trade : @Row Qc :=
  {| Trade := 2; Buy := of_int 3; Sell := of_int 5; Fee := of_int 10;
     Profit := profit_of (of_int 3) (of_int 5) (of_int 10);
     ROI := roi_of (of_int 3) (profit_of (of_int 3) (of_int 5) (of_int 10));
     Total_Return := total_return_of (of_int 5) (of_int 10);
     Color := "default" |}.

(** ** A snapshot with a missing field *)

(** The list [[{"Trade": 1}]]: well-formed JSON, no "Buy". *)
Definition missing_fields {T : Type} : @pyobj T :=
  PyList [PyDict [("Trade", PyNum (PyInt 1))]].

(** A codec that keeps the object as it is. *)
Definition plain_dumps {T : Type} (o : @pyobj T) : @pyobj T := o.
Definition plain_load {T : Type} (o : @pyobj T) : result (@pyobj T) := Ok o.

(* ------------------------------------------------------------------ *)
(** ** What the widgets of a trade return *)

Section Prefill.

Context {T : Type} {N : Number T}.

(** A number widget: the typed value, else the saved one, else 0.0. *)
Definition widget_value (typed : option T) (saved : option T) : T :=
  match typed with
  | Some v => v
  | None => match saved with Some x => x | None => of_int 0 end
  end.

(** The colour widget: the picked position, else the saved colour, else
    the first colour. *)
Definition widget_color (picked : option nat) (saved : option string)
    : string :=
  match picked with
  | Some k => nth k colors "default"
  | None => match saved with Some c => c | None => "default" end
  end.

(** The record of trade [i] when the snapshot in the session is the list
    [saved]: each widget starts from the first saved record numbered [i],
    if there is one, and the three derived keys are computed afresh. *)
Definition merged_row (saved : list (@Row T)) (ui : nat -> entry) (i : nat)
    : Row :=
  let prev := find (fun t => Trade t =? i) saved in
  let buy_price := widget_value (typed_buy (ui i)) (option_map Buy prev) in
  let sell_price := widget_value (typed_sell (ui i)) (option_map Sell prev) in
  let fee := widget_value (typed_fee (ui i)) (option_map Fee prev) in
  {| Trade := i; Buy := buy_price; Sell := sell_price; Fee := fee;
     Profit := profit_of buy_price sell_price fee;
     ROI := roi_of buy_price (profit_of buy_price sell_price fee);
     Total_Return := total_return_of sell_price fee;
     Color := widget_color (picked_color (ui i)) (option_map Color prev) |}.

(** Every pick is a position of the colour list. *)
Definition picks_in_range (ui : nat -> @entry T) : Prop :=
  forall i k, picked_color (ui i) = Some k -> k < List.length colors.

(** The three keys the valuation reads. *)
Definition inputs_of (t : @Row T) : T * T * T := (Buy t, Sell t, Fee t).

(** A saved number the float widgets accept as a default: not below
    their [min_value] 0.0. *)
Definition within_bounds (t : @Row T) : Prop :=
  num_gt (of_int 0) (Buy t) = false /\
  num_gt (of_int 0) (Sell t) = false /\
  num_gt (of_int 0) (Fee t) = false.

End Prefill.

(** ** More concrete inputs *)

(** Trade 1 typed as 10, 12, 1 and coloured red; trade 2 untouched. *)
Definition red_then_blank (i : nat) : @entry float :=
  match i with
  | 1 => {| typed_buy := Some 10%float; typed_sell := Some 12%float;
            typed_fee := Some 1%float; picked_color := Some 1 |}
  | _ => untouched
  end.

(** A saved record with a colour the list does not hold. *)
Definition green_row : @Row float :=
  {| Trade := 1; Buy := 1%float; Sell := 2%float; Fee := 0%float;
     Profit := 1%float; ROI := PyFloat 100%float;
     Total_Return := 2%float; Color := "green" |}.

(** The same two trades as [spec_two_trades], both coloured blue. *)
Definition spec_two_trades_blue (i : nat) : @entry float :=
  {| typed_buy := typed_buy (spec_two_trades i);
     typed_sell := typed_sell (spec_two_trades i);
     typed_fee := typed_fee (spec_two_trades i);
     picked_color := Some 2 |}.

(** The two records the form builds from [spec_two_trades]. *)
Definition two_saved : list (@Row float) :=
  map (merged_row [] spec_two_trades) [2; 1].

(** The records the form builds from [spec_two_trades_blue]. *)
Definition two_saved_blue : list (@Row float) :=
  map (merged_row [] spec_two_trades_blue) [2; 1].

(* ------------------------------------------------------------------ *)
(** ** The session with its widget keys *)

Section Widgets.

Context {T : Type} {N : Number T}.

(** What the four widgets of a trade hold once they have returned the
    inputs of the record [r]. *)
Definition holding (r : @Row T) : @entry T :=
  {| typed_buy := Some (Buy r); typed_sell := Some (Sell r);
     typed_fee := Some (Fee r);
     picked_color := index_of (Color r) colors |}.

(** [st.session_state] as a whole: the two keys the script writes and,
    under the keys [buy_i], [sell_i], [fee_i] and [color_i], what the
    widgets of trade [i] hold ([untouched] for widgets the session does
    not know). *)
Record browser : Type := {
  session : @session_state T;
  held : nat -> @entry T
}.

(** A session just opened. *)
Definition new_browser : browser :=
  {| session := fresh_session; held := fun _ => untouched |}.

(** A keyed widget returns what the user enters in this run, else the
    value it holds; its default counts only when it holds none. *)
Definition kept (edits held : nat -> @entry T) (i : nat) : @entry T :=
  {| typed_buy :=
       match typed_buy (edits i) with
       | Some v => Some v
       | None => typed_buy (held i)
       end;
     typed_sell :=
       match typed_sell (edits i) with
       | Some v => Some v
       | None => typed_sell (held i)
       end;
     typed_fee :=
       match typed_fee (edits i) with
       | Some v => Some v
       | None => typed_fee (held i)
       end;
     picked_color :=
       match picked_color (edits i) with
       | Some k => Some k
       | None => picked_color (held i)
       end |}.

(** After a run the session holds the values of the widgets the run drew,
    one set for each record of [trades], and has dropped the others. *)
Definition held_after (trades : list (@Row T)) (i : nat) : @entry T :=
  match find (fun t => Trade t =? i) trades with
  | Some r => holding r
  | None => untouched
  end.

Section Script.

Variable snapshot : Type.
Variable json_load : snapshot -> result (@pyobj T).

(** One run of tab 1 (lines 29-149): the form, drawn from what the
    session holds, then [load_trades] when the uploader holds a file.  An
    exception in the form ends the run. *)
Definition script_run (b : browser) (typed_count : option nat)
    (edits : nat -> entry) (uploaded : option snapshot)
    : result (form_state * option message * browser) :=
  r <- trade_form (session b) typed_count (kept edits (held b)) ;;
  let st := fst r in
  let after :=
    match uploaded with
    | Some uploaded_file =>
        let l := load_trades json_load uploaded_file (snd r) in
        (fst l, Some (snd l))
    | None => (snd r, None)
    end in
  Ok (st, snd after,
      {| session := fst after; held := held_after (trades st) |}).

End Script.

End Widgets.

Arguments script_run {T N snapshot} json_load b typed_count edits uploaded.

(* ================================================================== *)
(** * Properties *)

Lemma bind_ok {A B : Type} (c : result A) (k : A -> result B) (b : B) :
  bind c k = Ok b -> exists a, c = Ok a /\ k a = Ok b.
Proof.
  destruct c as [a | e]; simpl; intro H.
  - exists a. split; [reflexivity | exact H].
  - discriminate H.
Qed.

(** Splits a successful sequence of binds into its successful steps. *)
Ltac bind_inv H :=
  let a := fresh "a" in
  let Ha := fresh "Ha" in
  apply bind_ok in H; destruct H as (a & Ha & H).

Section FormFacts.

Context {T : Type} {N : Number T}.
Local Open Scope num_scope.

Lemma selectbox_in (options : list string) (index : nat)
    (picked : option nat) (s : string) :
  selectbox options index picked = Ok s -> In s options.
Proof.
  unfold selectbox.
  destruct (nth_error options _) as [s' |] eqn:E; intro H.
  - injection H as <-. eapply nth_error_In; eassumption.
  - discriminate H.
Qed.

Lemma form_body_ok (prev_trades : pyobj) (ui : nat -> entry) (i : nat)
    (acc acc' : form_state) :
  form_body prev_trades ui i acc = Ok acc' ->
  exists r,
    acc' = {| trades := trades acc ++ [r];
              total_profit := total_profit acc + Profit r;
              total_investment := total_investment acc + Buy r |} /\
    Trade r = i /\ derived r /\ In (Color r) colors.
Proof.
  unfold form_body. intro H.
  bind_inv H. bind_inv H. bind_inv H. bind_inv H. bind_inv H.
  bind_inv H. bind_inv H. bind_inv H. bind_inv H.
  injection H as <-.
  exists {| Trade := i; Buy := a1; Sell := a3; Fee := a5;
            Profit := profit_of a1 a3 a5;
            ROI := roi_of a1 (profit_of a1 a3 a5);
            Total_Return := total_return_of a3 a5; Color := a7 |}.
  split; [reflexivity |].
  repeat split. exact (selectbox_in _ _ _ _ Ha7).
Qed.

Lemma rev_seq_S (n : nat) : rev (seq 1 (S n)) = S n :: rev (seq 1 n).
Proof.
  rewrite seq_S, rev_app_distr. reflexivity.
Qed.

Lemma form_loop_ok (prev_trades : pyobj) (ui : nat -> entry) (n : nat) :
  forall acc st : form_state,
    form_loop prev_trades ui n acc = Ok st ->
    exists rows,
      st = {| trades := trades acc ++ rows;
              total_profit :=
                fold_left num_add (map Profit rows) (total_profit acc);
              total_investment :=
                fold_left num_add (map Buy rows) (total_investment acc) |} /\
      map Trade rows = rev (seq 1 n) /\
      Forall derived rows /\
      Forall (fun r => In (Color r) colors) rows.
Proof.
  induction n as [| n IH]; intros acc st H.
  - simpl in H. injection H as <-. exists [].
    rewrite app_nil_r. destruct acc. repeat split; constructor.
  - cbn [form_loop] in H. bind_inv H.
    apply form_body_ok in Ha. destruct Ha as (r & -> & Hi & Hd & Hc).
    apply IH in H. destruct H as (rows & -> & Hidx & Hder & Hcol).
    exists (r :: rows). cbn [trades total_profit total_investment].
    rewrite <- app_assoc. split; [reflexivity |].
    rewrite rev_seq_S. cbn [map]. rewrite Hi, Hidx.
    repeat split; constructor; assumption.
Qed.

(** What every successful run of the form leaves in [trades]: the records
    numbered [n], [n-1], ..., 1 in that order, each with its derived keys
    and a colour of the list. *)
Lemma trade_form_ok (ss ss' : session_state) (typed_count : option nat)
    (ui : nat -> entry) (st : form_state) :
  trade_form ss typed_count ui = Ok (st, ss') ->
  map Trade (trades st) = rev (seq 1 (List.length (trades st))) /\
  Forall derived (trades st) /\
  Forall (fun r => In (Color r) colors) (trades st).
Proof.
  unfold trade_form. intro H. bind_inv H. bind_inv H.
  injection H as <- <-.
  apply form_loop_ok in Ha0. destruct Ha0 as (rows & -> & Hidx & Hd & Hc).
  cbn [trades form_init app].
  replace (List.length rows) with (List.length (rev (seq 1 (count_input (snd a) typed_count)))).
  - rewrite length_rev, length_seq. auto.
  - rewrite <- Hidx. apply length_map.
Qed.

End FormFacts.

(* ------------------------------------------------------------------ *)
(** ** The order of the valuation fold *)

Section FoldFacts.

Context {T : Type} {N : Number T}.
Local Open Scope num_scope.

Lemma fold_step_seed (r : Row) : fold_step portfolio_init r = seed_state r.
Proof. reflexivity. Qed.

Lemma fold_step_initialized (s : portfolio) (r : Row) :
  initialized (fold_step s r) = true.
Proof.
  unfold fold_step. destruct (initialized s) eqn:E; simpl.
  - destruct (Buy r >? prev_portfolio s); reflexivity.
  - reflexivity.
Qed.

Lemma visited_indices (ss ss' : session_state) (typed_count : option nat)
    (ui : nat -> entry) (st : form_state) :
  trade_form ss typed_count ui = Ok (st, ss') ->
  map Trade (visited (trades st)) = seq 1 (List.length (trades st)).
Proof.
  intro H. apply trade_form_ok in H. destruct H as (Hidx & _).
  unfold visited. rewrite map_rev, Hidx. apply rev_involutive.
Qed.

(** The record the fold starts from is [trades[-1]]. *)
Lemma last_trade_visited (trades : list (@Row T)) :
  last_trade trades = hd_error (visited trades).
Proof.
  unfold last_trade, visited. destruct (rev trades); reflexivity.
Qed.

Lemma first_visited (ss ss' : session_state) (typed_count : option nat)
    (ui : nat -> entry) (st : form_state) (r : Row) (rest : list Row) :
  trade_form ss typed_count ui = Ok (st, ss') ->
  visited (trades st) = r :: rest ->
  Trade r = 1 /\ Forall (fun r' => Trade r <= Trade r') (trades st).
Proof.
  intros H Hv. pose proof (visited_indices _ _ _ _ _ H) as Hidx.
  rewrite Hv in Hidx. cbn [map] in Hidx.
  destruct (List.length (trades st)) as [| n] eqn:El; [discriminate Hidx |].
  cbn [seq] in Hidx. injection Hidx as H1 Hrest. split; [exact H1 |].
  rewrite H1. apply Forall_forall. intros r' Hin.
  apply trade_form_ok in H. destruct H as (Hall & _).
  assert (Hin' : In (Trade r') (map Trade (trades st)))
    by (apply in_map; exact Hin).
  rewrite Hall, <- in_rev in Hin'. apply in_seq in Hin'. lia.
Qed.

End FoldFacts.

(** Two floats that [==] tells apart are different. *)
Ltac float_neq :=
  let H := fresh "H" in
  intro H; vm_compute in H;
  match type of H with
  | PyFloat _ = PyFloat ?y =>
      apply (f_equal (fun n : @pynum float =>
                        match n with
                        | PyFloat v => PrimFloat.eqb v y
                        | PyInt _ => false
                        end)) in H
  | _ = ?y =>
      apply (f_equal (fun v : float => PrimFloat.eqb v y)) in H
  end;
  vm_compute in H; discriminate H.

(** C1, as the code has it: on every run of the form, the valuation fold
    visits the records in ascending trade number, 1, 2, ..., N.  The record
    that seeds the fold (setting [prev_portfolio] and [portfolio_value] to
    its buy price plus its net result) is trade 1, the earliest one, and
    the trades with higher numbers are folded in afterwards, up to N. *)
Theorem fold_visits_ascending
    {T : Type} {N : Number T} (ss ss' : @session_state T)
    (typed_count : option nat) (ui : nat -> entry) (st : form_state) :
  trade_form ss typed_count ui = Ok (st, ss') ->
  map Trade (visited (trades st)) = seq 1 (List.length (trades st)) /\
  forall r rest,
    visited (trades st) = r :: rest ->
    Trade r = 1 /\
    portfolio_logic (trades st) = fold_left fold_step rest (seed_state r).
Proof.
  intro H. split.
  - eapply visited_indices; eassumption.
  - intros r rest Hv. split.
    + eapply first_visited; eassumption.
    + unfold portfolio_logic. rewrite Hv. reflexivity.
Qed.

(** The theorem at work on the two-trade form. *)
Lemma fold_visits_ascending_witness :
  exists st ss',
    trade_form fresh_session (Some 2) spec_two_trades = Ok (st, ss') /\
    (map Trade (visited (trades st)) = seq 1 (List.length (trades st)) /\
     forall r rest,
       visited (trades st) = r :: rest ->
       Trade r = 1 /\
       portfolio_logic (trades st) = fold_left fold_step rest (seed_state r)).
Proof.
  eexists. eexists. split.
  - vm_compute. reflexivity.
  - eapply (fold_visits_ascending fresh_session _ (Some 2) spec_two_trades).
    vm_compute. reflexivity.
Defined.

(** C1 as stated fails: with two trades the fold visits trade 1 and then
    trade 2, so the record that seeds it is not the one with the highest
    number. *)
Lemma seed_is_not_latest_trade :
  exists st ss',
    trade_form fresh_session (Some 2) spec_two_trades = Ok (st, ss') /\
    map Trade (visited (trades st)) = [1; 2] /\
    ~ (exists r rest, visited (trades st) = r :: rest /\ Trade r = 2).
Proof.
  eexists. eexists. split; [vm_compute; reflexivity |].
  split; [reflexivity |].
  intros (r & rest & Hv & Hr). cbv [visited trades rev app] in Hv.
  injection Hv as <- _. discriminate Hr.
Qed.

(** C2, as the code has it: for exactly two trades, trade 1 with buy 200,
    sell 0, fee 0 and trade 2 with buy 100, sell 150, fee 0, the fold first
    processes trade 1, which leaves [portfolio_value] = 200 + (-200) = 0,
    and then trade 2, whose buy price 100 exceeds 0: the added capital is
    100 and [portfolio_value] = 0 - 100 + 50 + 100 = 50.  The engine
    produces [total_added_capital] = 100 and [portfolio_value] = 50. *)
Theorem two_trades_valuation :
  exists st ss' t1 t2,
    trade_form fresh_session (Some 2) spec_two_trades = Ok (st, ss') /\
    visited (trades st) = [t1; t2] /\
    Trade t1 = 1 /\ Trade t2 = 2 /\
    fold_step portfolio_init t1 =
      {| portfolio_value := 0%float; prev_portfolio := 0%float;
         total_added_capital := 0%float; initialized := true |} /\
    portfolio_logic (trades st) =
      {| portfolio_value := 50%float; prev_portfolio := 50%float;
         total_added_capital := 100%float; initialized := true |}.
Proof.
  do 4 eexists. split; [vm_compute; reflexivity |].
  split; [reflexivity |]. repeat split.
Qed.

(** C2 as stated fails: on that input the engine does not produce
    [total_added_capital] = 50 and [portfolio_value] = -200. *)
Lemma two_trades_not_as_stated :
  exists st ss',
    trade_form fresh_session (Some 2) spec_two_trades = Ok (st, ss') /\
    total_added_capital (portfolio_logic (trades st)) <> 50%float /\
    portfolio_value (portfolio_logic (trades st)) <> (-200)%float.
Proof.
  do 2 eexists. split; [vm_compute; reflexivity |].
  split; float_neq.
Qed.

(** C3, as the code has it: for every non-empty list of trades the form
    builds, [total_roi] is (portfolio_value / effective_invested - 1) * 100
    where [effective_invested] is the buy price of [trades[-1]] plus
    [total_added_capital]; [trades[-1]] is the trade numbered 1, the one
    with the lowest number (the earliest, the seed of the fold); and
    [total_roi] is 0 whenever [effective_invested > 0] does not hold. *)
Theorem total_roi_baseline
    {T : Type} {N : Number T} (ss ss' : @session_state T)
    (typed_count : option nat) (ui : nat -> entry) (st : form_state) :
  trade_form ss typed_count ui = Ok (st, ss') ->
  trades st <> [] ->
  exists r,
    last_trade (trades st) = Some r /\
    Trade r = 1 /\
    Forall (fun r' => Trade r <= Trade r') (trades st) /\
    effective_invested (trades st) =
      num_add (Buy r) (total_added_capital (portfolio_logic (trades st))) /\
    total_roi (trades st) =
      if num_gt (effective_invested (trades st)) (of_int 0)
      then PyFloat
             (num_mul
                (num_sub
                   (num_div (portfolio_value (portfolio_logic (trades st)))
                      (effective_invested (trades st)))
                   (of_int 1))
                (of_int 100))
      else PyInt 0.
Proof.
  intros H Hne.
  destruct (visited (trades st)) as [| r rest] eqn:Hv.
  - exfalso. apply Hne. unfold visited in Hv.
    rewrite <- (rev_involutive (trades st)), Hv. reflexivity.
  - exists r. destruct (first_visited _ _ _ _ _ _ _ H Hv) as (H1 & Hmin).
    repeat split; try assumption.
    + rewrite last_trade_visited, Hv. reflexivity.
    + unfold effective_invested. rewrite last_trade_visited, Hv. reflexivity.
Qed.

(** The theorem at work on a form whose second trade is smaller. *)
Lemma total_roi_baseline_witness :
  exists st ss',
    trade_form fresh_session (Some 2) shrinking_trades = Ok (st, ss') /\
    trades st <> [] /\
    exists r,
      last_trade (trades st) = Some r /\
      Trade r = 1 /\
      Forall (fun r' => Trade r <= Trade r') (trades st) /\
      effective_invested (trades st) =
        num_add (Buy r) (total_added_capital (portfolio_logic (trades st))) /\
      total_roi (trades st) =
        if num_gt (effective_invested (trades st)) (of_int 0)
        then PyFloat
               (num_mul
                  (num_sub
                     (num_div (portfolio_value (portfolio_logic (trades st)))
                        (effective_invested (trades st)))
                     (of_int 1))
                  (of_int 100))
        else PyInt 0.
Proof.
  do 2 eexists. split; [vm_compute; reflexivity |].
  split; [discriminate |].
  eapply (total_roi_baseline fresh_session _ (Some 2) shrinking_trades).
  - vm_compute. reflexivity.
  - discriminate.
Defined.

(** C3 as stated fails: with trade 1 bought and sold at 100 and trade 2
    bought and sold at 50, [total_roi] is -50 (baseline 100, the buy price
    of trade 1), while the formula taken with the buy price of the trade
    with the highest number gives (50 / 50 - 1) * 100 = 0. *)
Lemma total_roi_not_from_latest_trade :
  exists st ss',
    trade_form fresh_session (Some 2) shrinking_trades = Ok (st, ss') /\
    total_roi (trades st) = PyFloat (-50)%float /\
    forall r,
      In r (trades st) -> Trade r = 2 ->
      PyFloat
        (((portfolio_value (portfolio_logic (trades st))
           / (Buy r + total_added_capital (portfolio_logic (trades st)))
           - 1) * 100)%float) = PyFloat 0%float /\
      total_roi (trades st) <>
      PyFloat
        (((portfolio_value (portfolio_logic (trades st))
           / (Buy r + total_added_capital (portfolio_logic (trades st)))
           - 1) * 100)%float).
Proof.
  do 2 eexists. split; [vm_compute; reflexivity |].
  split; [vm_compute; reflexivity |].
  intros r [<- | [<- | []]] Hr; [| discriminate Hr].
  split; [vm_compute; reflexivity |]. float_neq.
Qed.

(* ------------------------------------------------------------------ *)
(** ** Sorting and filtering the overview table *)

Section TableFacts.

Context {T : Type} {N : Number T}.

Lemma filter_insert_length (f : @Row T -> bool) (t : Row) (df : list Row) :
  List.length (filter f (insert_by_trade t df)) =
  List.length (filter f (t :: df)).
Proof.
  induction df as [| u df IH]; [reflexivity |].
  cbn [insert_by_trade]. destruct (Trade t <=? Trade u); [reflexivity |].
  cbn [filter] in *. destruct (f u), (f t); cbn [List.length] in *; lia.
Qed.

Lemma filter_sort_length (f : @Row T -> bool) (df : list Row) :
  List.length (filter f (sort_values df)) = List.length (filter f df).
Proof.
  induction df as [| t df IH]; [reflexivity |].
  cbn [sort_values]. rewrite filter_insert_length.
  cbn [filter]. destruct (f t); cbn [List.length]; lia.
Qed.

Lemma with_color_only (color : string) (df : list (@Row T)) :
  Forall (fun t => Color t = color) (with_color color df).
Proof.
  apply Forall_forall. intros t Hin. unfold with_color in Hin.
  apply filter_In in Hin. destruct Hin as (_ & Heq).
  apply String.eqb_eq. exact Heq.
Qed.

Lemma colors_split (df : list (@Row T)) :
  Forall (fun t => In (Color t) colors) df ->
  List.length (with_color "red" df) + List.length (with_color "blue" df)
  + List.length (with_color "default" df) = List.length df.
Proof.
  induction 1 as [| t df Hc _ IH]; [reflexivity |].
  unfold with_color in *. cbn [filter].
  destruct Hc as [<- | [<- | [<- | []]]]; cbn [String.eqb Ascii.eqb Bool.eqb];
    cbn [List.length]; lia.
Qed.

End TableFacts.

(** C4, as the code has it: the overview has two subsets, red and blue.
    Filtering by a tag never includes a trade whose tag differs, and the
    sizes of the red and blue subsets sum to N minus the number of trades
    tagged 'default', which belong to no subset. *)
Theorem color_subsets
    {T : Type} {N : Number T} (ss ss' : @session_state T)
    (typed_count : option nat) (ui : nat -> entry) (st : form_state) :
  trade_form ss typed_count ui = Ok (st, ss') ->
  (forall tag,
     Forall (fun t => Color t = tag)
       (with_color tag (overview_df (trades st)))) /\
  Forall (fun t => Color t = "red") (red_df (trades st)) /\
  Forall (fun t => Color t = "blue") (blue_df (trades st)) /\
  List.length (red_df (trades st)) + List.length (blue_df (trades st))
  + List.length (with_color "default" (trades st))
  = List.length (trades st).
Proof.
  intro H. apply trade_form_ok in H. destruct H as (_ & _ & Hc).
  split; [intro tag; apply with_color_only |].
  split; [apply with_color_only |].
  split; [apply with_color_only |].
  unfold red_df, blue_df, overview_df, with_color.
  rewrite !filter_sort_length. apply colors_split. exact Hc.
Qed.

(** The theorem at work on the two-trade form, both trades 'default'. *)
Lemma color_subsets_witness :
  exists st ss',
    trade_form fresh_session (Some 2) spec_two_trades = Ok (st, ss') /\
    ((forall tag,
        Forall (fun t => Color t = tag)
          (with_color tag (overview_df (trades st)))) /\
     Forall (fun t => Color t = "red") (red_df (trades st)) /\
     Forall (fun t => Color t = "blue") (blue_df (trades st)) /\
     List.length (red_df (trades st)) + List.length (blue_df (trades st))
     + List.length (with_color "default" (trades st))
     = List.length (trades st)).
Proof.
  do 2 eexists. split; [vm_compute; reflexivity |].
  eapply (color_subsets fresh_session _ (Some 2) spec_two_trades).
  vm_compute. reflexivity.
Defined.

(** C4 as stated fails: a form left untouched holds one trade, tagged
    'default'; the red and the blue subsets are empty, so their sizes sum
    to 0 and not to N = 1. *)
Lemma default_trade_in_no_subset :
  exists st ss',
    trade_form fresh_session None untouched_form = Ok (st, ss') /\
    map Color (trades st) = ["default"] /\
    List.length (trades st) = 1 /\
    List.length (red_df (trades st)) + List.length (blue_df (trades st)) = 0.
Proof.
  do 2 eexists. split; [vm_compute; reflexivity |].
  repeat split.
Qed.



(** C8: for the empty list of trades every output is 0: the loop of the
    form leaves [total_profit] = 0 and the valuation leaves
    [portfolio_value] = 0, [total_added_capital] = 0 and [total_roi] = 0. *)
Theorem empty_list_outputs :
  (forall (prev_trades : @pyobj float) (ui : nat -> entry),
     form_loop prev_trades ui 0 form_init =
     Ok {| trades := []; total_profit := 0%float;
           total_investment := 0%float |}) /\
  portfolio_value (portfolio_logic (@nil (@Row float))) = 0%float /\
  total_added_capital (portfolio_logic (@nil (@Row float))) = 0%float /\
  effective_invested (@nil (@Row float)) = 0%float /\
  total_roi (@nil (@Row float)) = PyInt 0.
Proof.
  repeat split.
Qed.

(* ------------------------------------------------------------------ *)
(** ** The injection branch *)

(** In every arithmetic the new value of an injection step is the sum
    written on line 123, added from left to right. *)
Lemma injection_step_value {T : Type} {N : Number T}
    (s : @portfolio T) (t : Row) :
  initialized s = true ->
  num_gt (Buy t) (prev_portfolio s) = true ->
  portfolio_value (fold_step s t) =
  num_add
    (num_add (num_sub (prev_portfolio s) (Buy t)) (net_result t))
    (num_sub (Buy t) (prev_portfolio s)).
Proof.
  intros Hi Hg. unfold fold_step. rewrite Hi, Hg. reflexivity.
Qed.

(** C10, in exact arithmetic: in every step of the fold after the first in
    which an injection is detected (the buy price exceeds
    [prev_portfolio]), the new [portfolio_value] is exactly the trade's net
    result: [prev_portfolio - buy + added_capital] cancels to 0, so the
    value accumulated before the step has no effect on the value after
    it. *)
Theorem injection_step_exact (s s' : @portfolio Qc) (t : @Row Qc) :
  initialized s = true ->
  num_gt (Buy t) (prev_portfolio s) = true ->
  portfolio_value (fold_step s t) = net_result t /\
  (initialized s' = true ->
   num_gt (Buy t) (prev_portfolio s') = true ->
   portfolio_value (fold_step s' t) = portfolio_value (fold_step s t)).
Proof.
  assert (Hnet : forall u : @portfolio Qc,
             initialized u = true ->
             num_gt (Buy t) (prev_portfolio u) = true ->
             portfolio_value (fold_step u t) = net_result t).
  { intros u Hi Hg. rewrite (injection_step_value u t Hi Hg).
    cbn [num_add num_sub exact]. ring. }
  intros Hi Hg. split.
  - apply Hnet; assumption.
  - intros Hi' Hg'. rewrite (Hnet s Hi Hg). apply Hnet; assumption.
Qed.

(** The theorem at work on a trade bought at 3 when the portfolio holds 1. *)
Lemma injection_step_exact_witness :
  initialized exact_state = true /\
  num_gt (Buy exact_trade) (prev_portfolio exact_state) = true /\
  portfolio_value (fold_step exact_state exact_trade) = net_result exact_trade.
Proof.
  split; [reflexivity |]. split; [vm_compute; reflexivity |].
  refine (proj1 (injection_step_exact exact_state exact_state exact_trade _ _)).
  - reflexivity.
  - vm_compute. reflexivity.
Defined.

(** C10 as stated fails in the script's own arithmetic, binary64.  After a
    first trade with all inputs 0, a trade bought at 2^53 and sold at
    2^53 - 1 has net result -1 and triggers an injection of 2^53; line 123
    computes (0 - 2^53) + (-1), which rounds to -2^53, and then adds 2^53:
    the new [portfolio_value] is 0 and not -1. *)
Lemma injection_step_rounds :
  exists st ss' t1 t2,
    trade_form fresh_session (Some 2) absorbing_trades = Ok (st, ss') /\
    visited (trades st) = [t1; t2] /\
    initialized (fold_step portfolio_init t1) = true /\
    num_gt (Buy t2) (prev_portfolio (fold_step portfolio_init t1)) = true /\
    net_result t2 = (-1)%float /\
    portfolio_value (fold_step (fold_step portfolio_init t1) t2) = 0%float /\
    portfolio_value (fold_step (fold_step portfolio_init t1) t2)
    <> net_result t2.
Proof.
  do 4 eexists. split; [vm_compute; reflexivity |].
  split; [reflexivity |].
  split; [reflexivity |].
  split; [vm_compute; reflexivity |].
  split; [vm_compute; reflexivity |].
  split; [vm_compute; reflexivity |].
  float_neq.
Qed.

(** The same happens with everyday prices: after a trade bought at 47.84
    and sold at 15.15, a trade bought at 418.05 and sold at 216.95 triggers
    an injection, and the new [portfolio_value] differs from its net result
    in the last binary digit. *)
Lemma injection_step_rounds_cents :
  exists st ss' t1 t2,
    trade_form fresh_session (Some 2) everyday_trades = Ok (st, ss') /\
    visited (trades st) = [t1; t2] /\
    num_gt (Buy t2) (prev_portfolio (fold_step portfolio_init t1)) = true /\
    portfolio_value (fold_step (fold_step portfolio_init t1) t2)
    <> net_result t2.
Proof.
  do 4 eexists. split; [vm_compute; reflexivity |].
  split; [reflexivity |].
  split; [vm_compute; reflexivity |].
  float_neq.
Qed.

(* ------------------------------------------------------------------ *)
(** ** The chart of the portfolio value *)

Section ChartFacts.

Context {T : Type} {N : Number T}.
Local Open Scope num_scope.

Lemma insert_by_trade_perm (t : @Row T) (df : list Row) :
  Permutation (t :: df) (insert_by_trade t df).
Proof.
  induction df as [| u df IH]; [apply Permutation_refl |].
  cbn [insert_by_trade]. destruct (Trade t <=? Trade u).
  - apply Permutation_refl.
  - eapply perm_trans; [apply perm_swap |]. apply perm_skip. exact IH.
Qed.


Lemma insert_by_trade_sorted (t : @Row T) (df : list Row) :
  StronglySorted by_trade df -> StronglySorted by_trade (insert_by_trade t df).
Proof.
  induction 1 as [| u df Hs IH Hu].
  - repeat constructor.
  - cbn [insert_by_trade]. destruct (Trade t <=? Trade u) eqn:E.
    + apply Nat.leb_le in E. constructor.
      * constructor; assumption.
      * constructor; [exact E |].
        eapply Forall_impl; [| exact Hu].
        intros v Hv. unfold by_trade in *. lia.
    + apply Nat.leb_gt in E. constructor; [exact IH |].
      eapply Permutation_Forall; [apply insert_by_trade_perm |].
      constructor; [unfold by_trade; lia | exact Hu].
Qed.

Lemma sort_values_sorted (df : list (@Row T)) :
  StronglySorted by_trade (sort_values df).
Proof.
  induction df as [| t df IH]; [constructor |].
  cbn [sort_values]. apply insert_by_trade_sorted. exact IH.
Qed.

Lemma running_length (xs : list T) : forall acc,
  List.length (running acc xs) = List.length xs.
Proof.
  induction xs as [| x xs IH]; intro acc; [reflexivity |].
  cbn [running List.length]. rewrite IH. reflexivity.
Qed.

Lemma cumsum_length (xs : list T) : List.length (cumsum xs) = List.length xs.
Proof.
  destruct xs as [| x xs]; [reflexivity |].
  cbn [cumsum List.length]. rewrite running_length. reflexivity.
Qed.




End ChartFacts.

(** On the list a form builds, the overview table is the list in the order
    the valuation fold visits it: trades 1, 2, ..., N. *)
Lemma insert_by_trade_last {T : Type} (t : @Row T) (df : list Row) :
  Forall (fun u => Trade u < Trade t) df ->
  insert_by_trade t df = df ++ [t].
Proof.
  induction 1 as [| u df Hu _ IH]; [reflexivity |].
  cbn [insert_by_trade app].
  destruct (Nat.leb_spec (Trade t) (Trade u)) as [Hle | _]; [lia |].
  rewrite IH. reflexivity.
Qed.

Lemma sort_values_descending {T : Type} (n : nat) :
  forall rows : list (@Row T),
    map Trade rows = rev (seq 1 n) -> sort_values rows = rev rows.
Proof.
  induction n as [| n IH]; intros rows Hidx.
  - destruct rows; [reflexivity | discriminate Hidx].
  - rewrite rev_seq_S in Hidx.
    destruct rows as [| r rows]; [discriminate Hidx |].
    cbn [map] in Hidx. injection Hidx as Hr Hidx.
    cbn [sort_values rev]. rewrite (IH rows Hidx).
    apply insert_by_trade_last. apply Forall_forall. intros u Hu.
    assert (Hin : In (Trade u) (map Trade rows))
      by (apply in_map, in_rev; exact Hu).
    rewrite Hidx, <- in_rev in Hin. apply in_seq in Hin. lia.
Qed.

Lemma overview_df_visited {T : Type} {N : Number T}
    (ss ss' : @session_state T) (typed_count : option nat)
    (ui : nat -> entry) (st : form_state) :
  trade_form ss typed_count ui = Ok (st, ss') ->
  overview_df (trades st) = visited (trades st).
Proof.
  intro H. apply trade_form_ok in H. destruct H as (Hidx & _).
  unfold overview_df, visited. eapply sort_values_descending. exact Hidx.
Qed.

(** In exact arithmetic the two cumulative sums added are the sum, trade
    by trade, of buy price plus profit. *)
Lemma fold_regroup_exact (rows : list (@Row Qc)) : forall a b : Qc,
  fold_left num_add (map (fun t => num_add (Buy t) (Profit t)) rows)
    (num_add a b) =
  num_add (fold_left num_add (map Buy rows) a)
    (fold_left num_add (map Profit rows) b).
Proof.
  induction rows as [| t rows IH]; intros a b; [reflexivity |].
  cbn [map fold_left]. rewrite <- IH. f_equal.
  cbn [num_add exact]. ring.
Qed.

Lemma total_regroup_exact (rows : list (@Row Qc)) :
  total (map (fun t => num_add (Buy t) (Profit t)) rows) =
  num_add (total (map Buy rows)) (total (map Profit rows)).
Proof.
  destruct rows as [| t rows].
  - cbn [map total num_add exact]. apply Qc_is_canon. reflexivity.
  - cbn [map total]. apply fold_regroup_exact.
Qed.


(* ------------------------------------------------------------------ *)
(** ** Reloading a snapshot *)

Section ReloadFacts.

Context {T : Type} {N : Number T}.
Local Open Scope num_scope.

(** The generator of line 50, run on the records of a saved list. *)
Lemma first_match_saved (rows : list (@Row T)) (i : nat) :
  first_match (map row_to_py rows) i =
  Ok (option_map row_to_py (find (fun t => Trade t =? i) rows)).
Proof.
  induction rows as [| t rows IH]; [reflexivity |].
  cbn [map first_match find]. unfold row_to_py at 1.
  cbn [py_getitem dict_get String.eqb Ascii.eqb Bool.eqb bind py_eq_int].
  replace (Z.of_nat (Trade t) =? Z.of_nat i)%Z with (Trade t =? i).
  - destruct (Trade t =? i); [reflexivity | exact IH].
  - destruct (Nat.eqb_spec (Trade t) i) as [-> | Hne].
    + symmetry. apply Z.eqb_refl.
    + symmetry. apply Z.eqb_neq. lia.
Qed.

Lemma find_by_trade (rows : list (@Row T)) (r : Row) :
  NoDup (map Trade rows) -> In r rows ->
  find (fun t => Trade t =? Trade r) rows = Some r.
Proof.
  induction rows as [| t rows IH]; intros Hnd Hin; [contradiction |].
  cbn [map] in Hnd. inversion Hnd as [| ? ? Hnotin Hnd']; subst.
  cbn [find]. destruct Hin as [-> | Hin].
  - rewrite Nat.eqb_refl. reflexivity.
  - destruct (Nat.eqb_spec (Trade t) (Trade r)) as [E | _].
    + exfalso. apply Hnotin. rewrite E. apply in_map. exact Hin.
    + apply IH; assumption.
Qed.

Lemma index_of_nth (s : string) (options : list string) :
  In s options ->
  exists k, index_of s options = Some k /\ nth_error options k = Some s.
Proof.
  induction options as [| x options IH]; intro Hin; [contradiction |].
  cbn [index_of]. destruct (String.eqb_spec x s) as [-> | Hne].
  - exists 0. split; reflexivity.
  - destruct Hin as [E | Hin]; [contradiction |].
    destruct (IH Hin) as (k & -> & Hk). exists (S k). split; [reflexivity | exact Hk].
Qed.

(** The widgets of a trade found in the snapshot, left untouched, return
    the four saved inputs, and the record is rebuilt as it was. *)
Lemma form_body_reloaded (prev_trades : pyobj) (ui : nat -> entry)
    (r : Row) (acc : form_state) :
  find_prev prev_trades (Trade r) = Ok (Some (row_to_py r)) ->
  ui (Trade r) = untouched ->
  derived r -> In (Color r) colors ->
  form_body prev_trades ui (Trade r) acc =
  Ok {| trades := trades acc ++ [r];
        total_profit := total_profit acc + Profit r;
        total_investment := total_investment acc + Buy r |}.
Proof.
  intros Hf Hu (Hp & Hr & Ht) Hc. unfold form_body.
  rewrite Hf, Hu. cbn [bind default_value default_index]. unfold row_to_py.
  cbn [py_getitem dict_get String.eqb Ascii.eqb Bool.eqb bind number_input
       untouched typed_buy typed_sell typed_fee picked_color list_index].
  destruct (index_of_nth _ _ Hc) as (k & -> & Hk).
  cbn [bind]. unfold selectbox. rewrite Hk. cbn [bind].
  rewrite <- Hp, <- Hr, <- Ht. destruct r; reflexivity.
Qed.

Lemma form_loop_reloaded (prev_trades : pyobj) (n : nat) :
  forall (rows : list Row) (acc : form_state),
    map Trade rows = rev (seq 1 n) ->
    (forall r, In r rows ->
       find_prev prev_trades (Trade r) = Ok (Some (row_to_py r))) ->
    Forall derived rows ->
    Forall (fun r => In (Color r) colors) rows ->
    form_loop prev_trades (fun _ => untouched) n acc =
    Ok {| trades := trades acc ++ rows;
          total_profit :=
            fold_left num_add (map Profit rows) (total_profit acc);
          total_investment :=
            fold_left num_add (map Buy rows) (total_investment acc) |}.
Proof.
  induction n as [| n IH]; intros rows acc Hidx Hf Hd Hc.
  - destruct rows; [| discriminate Hidx].
    rewrite app_nil_r. destruct acc. reflexivity.
  - rewrite rev_seq_S in Hidx.
    destruct rows as [| r rows]; [discriminate Hidx |].
    cbn [map] in Hidx. injection Hidx as Hr Hidx.
    inversion Hd as [| ? ? Hdr Hd']; subst.
    inversion Hc as [| ? ? Hcr Hc']; subst.
    cbn [form_loop]. rewrite <- Hr.
    rewrite (form_body_reloaded prev_trades _ r acc);
      [| apply Hf; left; reflexivity | reflexivity | exact Hdr | exact Hcr].
    cbn [bind].
    rewrite (IH rows); [| exact Hidx | | exact Hd' | exact Hc'].
    + cbn [trades total_profit total_investment map fold_left].
      rewrite <- app_assoc. reflexivity.
    + intros r' Hin. apply Hf. right. exact Hin.
Qed.

(** Every record of a saved form is the one line 50 finds for its
    number. *)
Lemma find_prev_saved (ss ss' : session_state) (typed_count : option nat)
    (ui : nat -> entry) (st : form_state) (r : Row) :
  trade_form ss typed_count ui = Ok (st, ss') ->
  In r (trades st) ->
  find_prev (trades_to_py (trades st)) (Trade r) = Ok (Some (row_to_py r)).
Proof.
  intros H Hin. apply trade_form_ok in H. destruct H as (Hidx & _).
  unfold find_prev, trades_to_py. cbn [py_iter bind].
  rewrite first_match_saved, find_by_trade; [reflexivity | | exact Hin].
  rewrite Hidx. apply NoDup_rev, seq_NoDup.
Qed.

End ReloadFacts.

(** Loading a snapshot into widgets that hold nothing (a session given
    its [loaded_trades] before any trade widget was drawn): the saved
    "Buy", "Sell", "Fee (%)" and "Color" are the defaults of the widgets
    of each trade number, and the form rebuilds the saved list.  In a
    running session the widgets already drawn hold their own values and
    these defaults are not used.  [json.load] is assumed to give back the
    list of records [json.dumps] wrote. *)
Lemma snapshot_round_trip
    {T : Type} {N : Number T} (snapshot : Type)
    (json_dumps : @pyobj T -> snapshot)
    (json_load : snapshot -> result (@pyobj T))
    (ss ss1 : session_state) (typed_count : option nat)
    (ui : nat -> entry) (st : form_state) :
  (forall rows,
     json_load (json_dumps (trades_to_py rows)) = Ok (trades_to_py rows)) ->
  trade_form ss typed_count ui = Ok (st, ss1) ->
  let ss2 := {| loaded_trades := Some (trades_to_py (trades st));
                session_trades := Some (trades st) |} in
  load_trades json_load (save_trades json_dumps (trades st)) ss1
  = (ss2, success) /\
  (forall r,
     In r (trades st) ->
     exists prev k,
       find_prev (trades_to_py (trades st)) (Trade r) = Ok (Some prev) /\
       default_value (Some prev) "Buy" = Ok (PyNum (PyFloat (Buy r))) /\
       default_value (Some prev) "Sell" = Ok (PyNum (PyFloat (Sell r))) /\
       default_value (Some prev) "Fee (%)" = Ok (PyNum (PyFloat (Fee r))) /\
       default_index (Some prev) = Ok k /\
       nth_error colors k = Some (Color r)) /\
  trade_form ss2 None (fun _ => untouched) = Ok (st, ss2).
Proof.
  intros Hcodec H ss2.
  pose proof (trade_form_ok _ _ _ _ _ H) as (Hidx & Hd & Hc).
  split; [| split].
  - unfold load_trades, save_trades. rewrite Hcodec.
    unfold trade_form in H. bind_inv H. bind_inv H. injection H as -> <-.
    reflexivity.
  - intros r Hin. rewrite (find_prev_saved _ _ _ _ _ _ H Hin).
    rewrite Forall_forall in Hc.
    destruct (index_of_nth _ _ (Hc r Hin)) as (k & Hk & Hnth).
    exists (row_to_py r), k. split; [reflexivity |].
    unfold row_to_py.
    cbn [default_value default_index py_getitem dict_get String.eqb
         Ascii.eqb Bool.eqb bind list_index].
    rewrite Hk. repeat split. exact Hnth.
  - unfold trade_form at 1. subst ss2.
    cbn [loaded_trades trades_to_py py_len bind fst snd count_input].
    rewrite length_map.
    rewrite (form_loop_reloaded _ _ (trades st));
      [| exact Hidx
       | intros r Hin; exact (find_prev_saved _ _ _ _ _ _ H Hin)
       | exact Hd | exact Hc].
    cbn [bind trades form_init app total_profit total_investment].
    unfold trade_form in H. bind_inv H. bind_inv H. injection H as <- _.
    apply form_loop_ok in Ha0. destruct Ha0 as (rows & -> & _).
    reflexivity.
Qed.

(* ------------------------------------------------------------------ *)
(** ** Loading a snapshot that cannot be used *)

(** Malformed JSON: [json.load] raises, the error is reported and the
    session is left as it was. *)
Lemma load_trades_decode_error
    {T : Type} (snapshot : Type) (json_load : snapshot -> result (@pyobj T))
    (uploaded_file : snapshot) (ss : session_state) (e : exn) :
  json_load uploaded_file = Raise e ->
  load_trades json_load uploaded_file ss = (ss, error e).
Proof.
  intro H. unfold load_trades. rewrite H. reflexivity.
Qed.

(** C7, where the code departs from it: a snapshot that is well-formed JSON
    but lacks a field, such as [[{"Trade": 1}]], is not reported as an
    error.  [load_trades] reports success and replaces [loaded_trades];
    the next run of the form then raises [KeyError] on "Buy", whatever the
    user enters, and builds no list at all. *)
Theorem load_trades_accepts_missing_fields
    {T : Type} {N : Number T} (snapshot : Type)
    (json_load : snapshot -> result (@pyobj T))
    (uploaded_file : snapshot) (ss : session_state) (ui : nat -> entry) :
  json_load uploaded_file = Ok missing_fields ->
  load_trades json_load uploaded_file ss =
    ({| loaded_trades := Some missing_fields;
        session_trades := session_trades ss |}, success) /\
  trade_form (fst (load_trades json_load uploaded_file ss)) None ui =
    Raise (KeyError "Buy").
Proof.
  intro H. unfold load_trades. rewrite H. split; reflexivity.
Qed.

(** The theorem at work in a fresh session. *)
Lemma load_trades_accepts_missing_fields_witness :
  plain_load (@missing_fields float) = Ok missing_fields /\
  load_trades (T := float) plain_load missing_fields fresh_session =
    ({| loaded_trades := Some missing_fields;
        session_trades := session_trades fresh_session |}, success) /\
  trade_form (fst (load_trades (T := float) plain_load missing_fields fresh_session))
    None untouched_form = Raise (KeyError "Buy").
Proof.
  split; [reflexivity |].
  apply (load_trades_accepts_missing_fields _ plain_load missing_fields
           fresh_session untouched_form).
  reflexivity.
Defined.

(* ================================================================== *)
(** * Further properties of the script *)

(* ------------------------------------------------------------------ *)
(** ** The form, widget by widget *)

Section PrefillFacts.

Context {T : Type} {N : Number T}.
Local Open Scope num_scope.

Lemma selectbox_pick (index : nat) (picked : option nat) (c : string) :
  nth_error colors index = Some c ->
  (forall k, picked = Some k -> k < List.length colors) ->
  selectbox colors index picked = Ok (widget_color picked (Some c)).
Proof.
  intros Hi Hp. unfold selectbox, widget_color.
  destruct picked as [k |].
  - rewrite (nth_error_nth' colors "default" (Hp k eq_refl)). reflexivity.
  - rewrite Hi. reflexivity.
Qed.

Lemma form_body_merged (saved : list (@Row T)) (ui : nat -> entry)
    (i : nat) (acc : form_state) :
  Forall (fun r => In (Color r) colors) saved ->
  picks_in_range ui ->
  form_body (trades_to_py saved) ui i acc =
  Ok {| trades := trades acc ++ [merged_row saved ui i];
        total_profit := total_profit acc + Profit (merged_row saved ui i);
        total_investment :=
          total_investment acc + Buy (merged_row saved ui i) |}.
Proof.
  intros Hc Hp. unfold form_body, find_prev, trades_to_py, merged_row.
  cbn [py_iter bind]. rewrite first_match_saved.
  destruct (find (fun t => Trade t =? i) saved) as [r |] eqn:E.
  - apply find_some in E. destruct E as (Hin & _).
    rewrite Forall_forall in Hc.
    destruct (index_of_nth _ _ (Hc r Hin)) as (k & Hk & Hnth).
    cbn [option_map bind default_value default_index]. unfold row_to_py.
    cbn [py_getitem dict_get String.eqb Ascii.eqb Bool.eqb bind number_input
         list_index].
    rewrite Hk. cbn [bind].
    rewrite (selectbox_pick k _ (Color r) Hnth (Hp i)).
    reflexivity.
  - cbn [option_map bind default_value default_index number_input].
    assert (Hs : selectbox colors 0 (picked_color (ui i)) =
                 Ok (widget_color (picked_color (ui i)) None)).
    { unfold selectbox, widget_color.
      destruct (picked_color (ui i)) as [k |] eqn:Ek; [| reflexivity].
      rewrite (nth_error_nth' colors "default" (Hp i k Ek)). reflexivity. }
    rewrite Hs. reflexivity.
Qed.

Lemma form_loop_merged (saved : list (@Row T)) (ui : nat -> entry) (n : nat) :
  Forall (fun r => In (Color r) colors) saved ->
  picks_in_range ui ->
  forall acc : form_state,
    form_loop (trades_to_py saved) ui n acc =
    Ok {| trades := trades acc ++ map (merged_row saved ui) (rev (seq 1 n));
          total_profit :=
            fold_left num_add
              (map Profit (map (merged_row saved ui) (rev (seq 1 n))))
              (total_profit acc);
          total_investment :=
            fold_left num_add
              (map Buy (map (merged_row saved ui) (rev (seq 1 n))))
              (total_investment acc) |}.
Proof.
  intros Hc Hp. induction n as [| n IH]; intro acc.
  - cbn. rewrite app_nil_r. destruct acc. reflexivity.
  - cbn [form_loop]. rewrite (form_body_merged saved ui (S n) acc Hc Hp).
    cbn [bind]. rewrite IH, rev_seq_S.
    cbn [trades total_profit total_investment map fold_left].
    rewrite <- app_assoc. reflexivity.
Qed.

End PrefillFacts.

(** X1: in a session that never loaded a snapshot the form cannot raise
    (the picks being positions of the colour list): it builds one record
    per trade, numbered from the count down to 1, each holding the typed
    numbers, or 0.0 where nothing was typed, and the picked colour, or
    "default"; the count is 1 unless the user typed another. *)
Theorem fresh_form_never_raises
    {T : Type} {N : Number T} (ss : @session_state T)
    (typed_count : option nat) (ui : nat -> entry) :
  loaded_trades ss = None ->
  picks_in_range ui ->
  exists st,
    trade_form ss typed_count ui =
      Ok (st, {| loaded_trades := None;
                 session_trades := Some (trades st) |}) /\
    trades st =
      map (merged_row [] ui) (rev (seq 1 (count_input 1 typed_count))).
Proof.
  intros Hl Hp. unfold trade_form. rewrite Hl. cbn [bind fst snd].
  change (@PyList T []) with (@trades_to_py T []).
  rewrite (form_loop_merged [] ui _ (Forall_nil _) Hp).
  cbn [bind trades form_init app].
  eexists (Build_form_state _ _ _). split; reflexivity.
Qed.

(** The theorem at work on a form whose first trade is typed and red. *)
Lemma fresh_form_never_raises_witness :
  loaded_trades (@fresh_session float) = None /\
  picks_in_range red_then_blank /\
  exists st,
    trade_form fresh_session (Some 2) red_then_blank =
      Ok (st, {| loaded_trades := None;
                 session_trades := Some (trades st) |}) /\
    trades st =
      map (merged_row [] red_then_blank)
        (rev (seq 1 (count_input 1 (Some 2)))).
Proof.
  assert (Hp : picks_in_range red_then_blank).
  { intros i k. destruct i as [| [| i]]; cbn; intro H;
      try discriminate H. injection H as <-. lia. }
  split; [reflexivity |]. split; [exact Hp |].
  apply (fresh_form_never_raises fresh_session (Some 2) red_then_blank).
  - reflexivity.
  - exact Hp.
Defined.

(** The form function on a snapshot whose records carry colours of the
    list: it cannot raise, and each widget of a trade returns what [ui]
    gives it (typed or held), else the value saved under that trade number
    (the first such record), else 0.0 or "default". *)
Lemma reloaded_form_prefill
    {T : Type} {N : Number T} (ss : @session_state T)
    (saved : list Row) (typed_count : option nat) (ui : nat -> entry) :
  loaded_trades ss = Some (trades_to_py saved) ->
  Forall (fun r => In (Color r) colors) saved ->
  Forall within_bounds saved ->
  1 <= List.length saved <= 50 ->
  (forall n, typed_count = Some n -> 1 <= n <= 50) ->
  picks_in_range ui ->
  exists st,
    trade_form ss typed_count ui =
      Ok (st, {| loaded_trades := loaded_trades ss;
                 session_trades := Some (trades st) |}) /\
    trades st =
      map (merged_row saved ui)
        (rev (seq 1 (count_input (List.length saved) typed_count))) /\
    Forall derived (trades st).
Proof.
  intros Hl Hc _ _ _ Hp. unfold trade_form. rewrite Hl.
  cbn [trades_to_py py_len bind fst snd]. rewrite length_map.
  change (PyList (map row_to_py saved)) with (trades_to_py saved).
  rewrite (form_loop_merged saved ui _ Hc Hp).
  cbn [bind trades form_init app]. eexists (Build_form_state _ _ _).
  split; [reflexivity |]. split; [reflexivity |].
  apply Forall_forall. intros r Hin. apply in_map_iff in Hin.
  destruct Hin as (i & <- & _). repeat split.
Qed.

(* ------------------------------------------------------------------ *)
(** ** Snapshots the form cannot use *)

(** X4: loaded data that has no length ([null], [true], [false] or a
    number) makes every later run of the form raise [TypeError] at
    [len(prev_trades)], before any widget is drawn. *)
Theorem unsized_snapshot_raises
    {T : Type} {N : Number T} (ss : @session_state T) (data : pyobj)
    (typed_count : option nat) (ui : nat -> entry) :
  loaded_trades ss = Some data ->
  data = PyNone \/ (exists b, data = PyBool b) \/ (exists n, data = PyNum n) ->
  trade_form ss typed_count ui = Raise TypeError.
Proof.
  intros Hl [-> | [(b & ->) | (n & ->)]]; unfold trade_form; rewrite Hl;
    reflexivity.
Qed.

(** The theorem at work on the snapshot [null]. *)
Lemma unsized_snapshot_raises_witness :
  trade_form
    {| loaded_trades := Some (@PyNone float); session_trades := None |}
    None untouched_form = Raise TypeError.
Proof.
  apply (unsized_snapshot_raises
           {| loaded_trades := Some (@PyNone float); session_trades := None |}
           PyNone None untouched_form).
  - reflexivity.
  - left. reflexivity.
Defined.

(** X5: when the first element of a loaded list cannot give its "Trade"
    (a dict without that key, or not a dict at all), every run of the
    form with at least one trade raises on its first lookup, whatever the
    trade number and whatever the rest of the list holds (its length being
    one the count widget accepts): [KeyError] on "Trade" for the dict,
    [TypeError] otherwise. *)
Theorem first_element_without_trade
    {T : Type} {N : Number T} (ss : @session_state T)
    (p : pyobj) (l : list pyobj) (typed_count : option nat)
    (ui : nat -> entry) :
  loaded_trades ss = Some (PyList (p :: l)) ->
  S (List.length l) <= 50 ->
  1 <= count_input (S (List.length l)) typed_count ->
  (forall d, p = PyDict d -> dict_get d "Trade" = None ->
             trade_form ss typed_count ui = Raise (KeyError "Trade")) /\
  ((forall d, p <> PyDict d) ->
   trade_form ss typed_count ui = Raise TypeError).
Proof.
  intros Hl _ Hn. unfold trade_form. rewrite Hl.
  cbn [py_len bind fst snd List.length].
  destruct (count_input (S (List.length l)) typed_count) as [| n];
    [lia |].
  cbn [form_loop]. unfold form_body, find_prev.
  cbn [py_iter bind first_match]. split.
  - intros d -> Hd. cbn [py_getitem]. rewrite Hd. reflexivity.
  - intro Hp. destruct p; try reflexivity. destruct (Hp d eq_refl).
Qed.

(** The theorem at work on the list [[{}]]. *)
Lemma first_element_without_trade_witness :
  (forall d, @PyDict float [] = PyDict d -> dict_get d "Trade" = None ->
             trade_form
               {| loaded_trades := Some (PyList [PyDict []]);
                  session_trades := None |} None untouched_form
             = Raise (KeyError "Trade")) /\
  ((forall d, @PyDict float [] <> PyDict d) ->
   trade_form
     {| loaded_trades := Some (PyList [PyDict []]);
        session_trades := None |} None untouched_form
   = Raise TypeError).
Proof.
  apply (first_element_without_trade
           {| loaded_trades := Some (PyList [PyDict []]);
              session_trades := None |} (PyDict []) [] None untouched_form).
  - reflexivity.
  - cbn. lia.
  - cbn. lia.
Defined.

Lemma index_of_absent (s : string) (options : list string) :
  ~ In s options -> index_of s options = None.
Proof.
  induction options as [| x options IH]; intro Hno; [reflexivity |].
  cbn [index_of]. destruct (String.eqb_spec x s) as [-> | _].
  - exfalso. apply Hno. left. reflexivity.
  - rewrite IH; [reflexivity |]. intro Hin. apply Hno. right. exact Hin.
Qed.

(** X6: a saved record whose colour is not one of "default", "red" and
    "blue" stops the form: when the record found for the highest trade
    number carries such a colour (its numbers being defaults the widgets
    accept), the run raises [ValueError] at [.index], whatever the user
    typed or picked. *)
Theorem unknown_color_raises
    {T : Type} {N : Number T} (ss : @session_state T)
    (saved : list Row) (typed_count : option nat) (ui : nat -> entry)
    (n : nat) (r : Row) :
  loaded_trades ss = Some (trades_to_py saved) ->
  1 <= List.length saved <= 50 ->
  count_input (List.length saved) typed_count = S n ->
  find (fun t => Trade t =? S n) saved = Some r ->
  within_bounds r ->
  ~ In (Color r) colors ->
  trade_form ss typed_count ui = Raise ValueError.
Proof.
  intros Hl _ Hn Hf _ Hc. unfold trade_form. rewrite Hl.
  cbn [trades_to_py py_len bind fst snd]. rewrite length_map, Hn.
  cbn [form_loop]. unfold form_body, find_prev, trades_to_py.
  cbn [py_iter bind]. rewrite first_match_saved, Hf.
  cbn [option_map bind default_value default_index]. unfold row_to_py.
  cbn [py_getitem dict_get String.eqb Ascii.eqb Bool.eqb bind number_input
       list_index].
  rewrite (index_of_absent _ _ Hc). reflexivity.
Qed.

(** The theorem at work on a snapshot of one green trade. *)
Lemma unknown_color_raises_witness :
  trade_form
    {| loaded_trades := Some (trades_to_py [green_row]);
       session_trades := None |} None red_then_blank = Raise ValueError.
Proof.
  apply (unknown_color_raises
           {| loaded_trades := Some (trades_to_py [green_row]);
              session_trades := None |} [green_row] None red_then_blank
           0 green_row).
  - reflexivity.
  - cbn. lia.
  - reflexivity.
  - reflexivity.
  - repeat split.
  - cbn. intros [H | [H | [H | []]]]; discriminate H.
Defined.

(** X7: an upload [json.load] cannot parse is reported as an error and
    leaves the whole session as it was, so the next run of the form gives
    what it would have given without the upload; and no upload, parsed or
    not, touches the list the overview reads. *)
Theorem failed_load_leaves_session
    {T : Type} {N : Number T} (snapshot : Type)
    (json_load : snapshot -> result (@pyobj T))
    (uploaded_file : snapshot) (ss : session_state) :
  session_trades (fst (load_trades json_load uploaded_file ss))
  = session_trades ss /\
  forall e,
    json_load uploaded_file = Raise e ->
    load_trades json_load uploaded_file ss = (ss, error e) /\
    forall typed_count ui,
      trade_form (fst (load_trades json_load uploaded_file ss))
        typed_count ui
      = trade_form ss typed_count ui.
Proof.
  unfold load_trades. destruct (json_load uploaded_file) as [data | e'].
  - split; [reflexivity |]. intros e H. discriminate H.
  - split; [reflexivity |]. intros e H. injection H as <-.
    split; [reflexivity |]. intros. reflexivity.
Qed.

(* ------------------------------------------------------------------ *)
(** ** What the valuation reads and keeps *)

Section ValuationFacts.

Context {T : Type} {N : Number T}.
Local Open Scope num_scope.

Lemma fold_step_inputs (s : portfolio) (t u : @Row T) :
  inputs_of t = inputs_of u -> fold_step s t = fold_step s u.
Proof.
  unfold inputs_of. intro H. injection H as Hb Hs Hf.
  unfold fold_step, net_result. rewrite Hb, Hs, Hf. reflexivity.
Qed.

Lemma fold_left_inputs (l : list (@Row T)) : forall l' s,
  map inputs_of l = map inputs_of l' ->
  fold_left fold_step l s = fold_left fold_step l' s.
Proof.
  induction l as [| t l IH]; intros [| u l'] s H; try discriminate H.
  - reflexivity.
  - cbn [map] in H. injection H as Hb Hs Hf Hl. cbn [fold_left].
    rewrite (fold_step_inputs s t u); [apply IH; exact Hl |].
    unfold inputs_of. rewrite Hb, Hs, Hf. reflexivity.
Qed.

Lemma fold_step_links (s : portfolio) (t : @Row T) :
  prev_portfolio (fold_step s t) = portfolio_value (fold_step s t).
Proof. reflexivity. Qed.

End ValuationFacts.

(** X8: the valuation reads only "Buy", "Sell" and "Fee (%)" and the
    order of the list.  Two lists that agree on these three keys, record
    by record, get the same portfolio value, the same added capital, the
    same effective investment and the same total ROI: colours, trade
    numbers and the stored "Profit", "ROI (%)" and "Total Return" have no
    effect on the totals. *)
Theorem valuation_reads_inputs_only
    {T : Type} {N : Number T} (trades1 trades2 : list (@Row T)) :
  map inputs_of trades1 = map inputs_of trades2 ->
  portfolio_logic trades1 = portfolio_logic trades2 /\
  effective_invested trades1 = effective_invested trades2 /\
  total_roi trades1 = total_roi trades2.
Proof.
  intro H.
  assert (Hv : map inputs_of (visited trades1)
               = map inputs_of (visited trades2))
    by (unfold visited; rewrite !map_rev, H; reflexivity).
  assert (Hp : portfolio_logic trades1 = portfolio_logic trades2)
    by (apply fold_left_inputs; exact Hv).
  assert (He : effective_invested trades1 = effective_invested trades2).
  { unfold effective_invested. rewrite Hp, !last_trade_visited.
    destruct (visited trades1) as [| t l], (visited trades2) as [| u l'];
      try discriminate Hv; [reflexivity |].
    cbn [map] in Hv. injection Hv as Hb _ _ _.
    cbn [hd_error]. rewrite Hb. reflexivity. }
  split; [exact Hp |]. split; [exact He |].
  unfold total_roi. rewrite He, Hp. reflexivity.
Qed.

(** The theorem at work on the two-trade form, recoloured blue. *)
Lemma valuation_reads_inputs_only_witness :
  map inputs_of two_saved = map inputs_of two_saved_blue /\
  map Color two_saved <> map Color two_saved_blue /\
  portfolio_logic two_saved = portfolio_logic two_saved_blue /\
  effective_invested two_saved = effective_invested two_saved_blue /\
  total_roi two_saved = total_roi two_saved_blue.
Proof.
  split; [reflexivity |]. split; [discriminate |].
  apply (valuation_reads_inputs_only two_saved two_saved_blue).
  reflexivity.
Defined.

(** X9: after the fold over any non-empty list the state is initialized
    and [prev_portfolio] equals [portfolio_value] (line 124 closes every
    step); over the empty list the state is the initial one, not
    initialized. *)
Theorem fold_keeps_prev_in_step
    {T : Type} {N : Number T} (trades : list (@Row T)) :
  (trades = [] -> portfolio_logic trades = portfolio_init) /\
  (trades <> [] ->
   initialized (portfolio_logic trades) = true /\
   prev_portfolio (portfolio_logic trades)
   = portfolio_value (portfolio_logic trades)).
Proof.
  split.
  - intros ->. reflexivity.
  - intro Hne. destruct trades as [| t l]; [destruct (Hne eq_refl) |].
    unfold portfolio_logic, visited. cbn [rev].
    rewrite fold_left_app. cbn [fold_left]. split.
    + apply fold_step_initialized.
    + apply fold_step_links.
Qed.

(** X10: the totals of the form.  On every run, [total_profit] and
    [total_investment] are the sums of the records' "Profit" and "Buy",
    added to 0.0 in the order of the list, from the highest trade number
    down to 1; and the net result the valuation computes for a record is
    the "Profit" the form stored in it. *)
Theorem form_totals_are_sums
    {T : Type} {N : Number T} (ss ss' : @session_state T)
    (typed_count : option nat) (ui : nat -> entry) (st : form_state) :
  trade_form ss typed_count ui = Ok (st, ss') ->
  total_profit st = fold_left num_add (map Profit (trades st)) (of_int 0) /\
  total_investment st = fold_left num_add (map Buy (trades st)) (of_int 0) /\
  Forall (fun r => net_result r = Profit r) (trades st).
Proof.
  intro H. unfold trade_form in H. bind_inv H. bind_inv H.
  injection H as <- _.
  apply form_loop_ok in Ha0. destruct Ha0 as (rows & -> & _ & Hd & _).
  cbn [trades total_profit total_investment form_init app].
  split; [reflexivity |]. split; [reflexivity |].
  eapply Forall_impl; [| exact Hd].
  intros r (Hp & _). rewrite Hp. reflexivity.
Qed.

(** The theorem at work on the two-trade form. *)
Lemma form_totals_are_sums_witness :
  exists st ss',
    trade_form fresh_session (Some 2) spec_two_trades = Ok (st, ss') /\
    total_profit st = fold_left num_add (map Profit (trades st)) (of_int 0) /\
    total_investment st
    = fold_left num_add (map Buy (trades st)) (of_int 0) /\
    Forall (fun r => net_result r = Profit r) (trades st).
Proof.
  do 2 eexists. split; [vm_compute; reflexivity |].
  eapply (form_totals_are_sums fresh_session _ (Some 2) spec_two_trades).
  vm_compute. reflexivity.
Defined.

(* ------------------------------------------------------------------ *)
(** ** The overview tables and their charts *)

(** X11: the overview table of a form lists its trades by ascending
    number, 1, 2, ..., N, one row per trade: the list the form stored,
    reversed, which is the order the valuation visits. *)
Theorem overview_lists_trades_in_order
    {T : Type} {N : Number T} (ss ss' : @session_state T)
    (typed_count : option nat) (ui : nat -> entry) (st : form_state) :
  trade_form ss typed_count ui = Ok (st, ss') ->
  overview_df (trades st) = rev (trades st) /\
  overview_df (trades st) = visited (trades st) /\
  map Trade (overview_df (trades st)) = seq 1 (List.length (trades st)).
Proof.
  intro H. pose proof (overview_df_visited _ _ _ _ _ H) as Ho.
  split; [exact Ho |]. split; [exact Ho |].
  rewrite Ho. eapply visited_indices. exact H.
Qed.

(** The theorem at work on the two-trade form. *)
Lemma overview_lists_trades_in_order_witness :
  exists st ss',
    trade_form fresh_session (Some 2) spec_two_trades = Ok (st, ss') /\
    overview_df (trades st) = rev (trades st) /\
    overview_df (trades st) = visited (trades st) /\
    map Trade (overview_df (trades st)) = seq 1 (List.length (trades st)).
Proof.
  do 2 eexists. split; [vm_compute; reflexivity |].
  eapply (overview_lists_trades_in_order
            fresh_session _ (Some 2) spec_two_trades).
  vm_compute. reflexivity.
Defined.

Section SortedFacts.

Context {T : Type} {N : Number T}.

Lemma sort_values_fixed (df : list (@Row T)) :
  StronglySorted by_trade df -> sort_values df = df.
Proof.
  induction 1 as [| t df Hs IH Ht]; [reflexivity |].
  cbn [sort_values]. rewrite IH.
  destruct df as [| u df]; [reflexivity |].
  cbn [insert_by_trade]. inversion Ht as [| ? ? Hu _]; subst.
  unfold by_trade in Hu. apply Nat.leb_le in Hu. rewrite Hu. reflexivity.
Qed.

Lemma filter_sorted (f : @Row T -> bool) (df : list Row) :
  StronglySorted by_trade df -> StronglySorted by_trade (filter f df).
Proof.
  induction 1 as [| t df Hs IH Ht]; [constructor |].
  cbn [filter]. destruct (f t); [| exact IH].
  constructor; [exact IH |].
  apply Forall_forall. intros u Hu. apply filter_In in Hu.
  rewrite Forall_forall in Ht. apply Ht. apply Hu.
Qed.

Lemma map_fst_combine {A B : Type} (l : list A) : forall l' : list B,
  List.length l <= List.length l' -> map fst (combine l l') = l.
Proof.
  induction l as [| x l IH]; intros l' Hl; [reflexivity |].
  destruct l' as [| y l']; cbn [List.length] in Hl; [lia |].
  cbn [combine map fst]. rewrite IH; [reflexivity | lia].
Qed.

Lemma chart_df_rows (df_subset : list (@Row T)) :
  map fst (chart_df df_subset) = sort_values df_subset.
Proof.
  unfold chart_df. apply map_fst_combine.
  rewrite length_map, length_combine, !cumsum_length, !length_map,
    Nat.min_id. lia.
Qed.

End SortedFacts.

(** X12: sorting again inside [show_charts] changes nothing.  For the
    whole table and for every colour subset of it, the rows the chart is
    drawn from are the rows of that table, in the same order, so the k-th
    point of each series belongs to the k-th row shown. *)
Theorem charts_keep_table_order
    {T : Type} {N : Number T} (trades : list (@Row T)) (color : string) :
  map fst (chart_df (overview_df trades)) = overview_df trades /\
  map fst (chart_df (with_color color (overview_df trades)))
  = with_color color (overview_df trades) /\
  map fst (snd (fst (show_charts (with_color color (overview_df trades)))))
  = map Trade (with_color color (overview_df trades)).
Proof.
  assert (Hsub : sort_values (with_color color (overview_df trades))
                 = with_color color (overview_df trades)).
  { apply sort_values_fixed. unfold with_color, overview_df.
    apply filter_sorted, sort_values_sorted. }
  split; [| split].
  - rewrite chart_df_rows. apply sort_values_fixed.
    unfold overview_df. apply sort_values_sorted.
  - rewrite chart_df_rows. exact Hsub.
  - unfold show_charts. cbn [fst snd]. rewrite map_map. cbn [fst].
    rewrite <- (map_map fst Trade), chart_df_rows, Hsub. reflexivity.
Qed.

(* ------------------------------------------------------------------ *)
(** ** Added capital, in exact arithmetic *)

Lemma Qc_gt_lt (x y : Qc) : Qc_gt x y = true -> (y < x)%Qc.
Proof.
  unfold Qc_gt. destruct (x ?= y)%Qc eqn:E; intro H; try discriminate H.
  apply Qcgt_alt in E. exact E.
Qed.

Lemma fold_step_added_capital (s : @portfolio Qc) (t : @Row Qc) :
  (total_added_capital s <= total_added_capital (fold_step s t))%Qc.
Proof.
  unfold fold_step. destruct (initialized s); cbn [negb].
  - destruct (num_gt (Buy t) (prev_portfolio s)) eqn:E;
      cbn [total_added_capital]; [| apply Qcle_refl].
    cbn [num_gt exact] in E. apply Qc_gt_lt in E.
    cbn [num_add num_sub exact].
    apply Qcle_minus_iff.
    replace (total_added_capital s + (Buy t - prev_portfolio s)
             + - total_added_capital s)%Qc
      with (Buy t + - prev_portfolio s)%Qc by ring.
    apply Qclt_le_weak. apply (proj1 (Qclt_minus_iff _ _)). exact E.
  - cbn [total_added_capital]. apply Qcle_refl.
Qed.

(** X13, in exact arithmetic: the added capital never decreases along the
    fold and is never negative; each step adds the positive excess of the
    buy price over [prev_portfolio], or nothing. *)
Theorem added_capital_never_negative (trades : list (@Row Qc)) :
  (0 <= total_added_capital (portfolio_logic trades))%Qc /\
  forall (s : @portfolio Qc) (t : @Row Qc),
    (total_added_capital s <= total_added_capital (fold_step s t))%Qc.
Proof.
  split; [| apply fold_step_added_capital].
  unfold portfolio_logic.
  assert (H : forall l (s : @portfolio Qc),
             (0 <= total_added_capital s)%Qc ->
             (0 <= total_added_capital (fold_left fold_step l s))%Qc).
  { induction l as [| t l IH]; intros s Hs; [exact Hs |].
    cbn [fold_left]. apply IH.
    eapply Qcle_trans; [exact Hs | apply fold_step_added_capital]. }
  apply H. apply Qcle_refl.
Qed.

(* ================================================================== *)
(** * The form in a running session *)

Section BrowserFacts.

Context {T : Type} {N : Number T}.
Variable snapshot : Type.
Variable json_load : snapshot -> result (@pyobj T).

Lemma script_run_idle (b : browser) (typed_count : option nat)
    (edits : nat -> entry) (st : form_state) (ss' : session_state) :
  trade_form (session b) typed_count (kept edits (held b)) = Ok (st, ss') ->
  script_run json_load b typed_count edits None =
  Ok (st, None, {| session := ss'; held := held_after (trades st) |}).
Proof.
  intro H. unfold script_run. rewrite H. reflexivity.
Qed.

Lemma script_run_upload (b : browser) (typed_count : option nat)
    (edits : nat -> entry) (st : form_state) (ss' : session_state)
    (uploaded_file : snapshot) (data : pyobj) :
  trade_form (session b) typed_count (kept edits (held b)) = Ok (st, ss') ->
  json_load uploaded_file = Ok data ->
  script_run json_load b typed_count edits (Some uploaded_file) =
  Ok (st, Some success,
      {| session := {| loaded_trades := Some data;
                       session_trades := session_trades ss' |};
         held := held_after (trades st) |}).
Proof.
  intros H Hl. unfold script_run, load_trades. rewrite H.
  cbn [bind fst snd]. rewrite Hl. reflexivity.
Qed.

Lemma index_of_lt (s : string) (options : list string) : forall k,
  index_of s options = Some k -> k < List.length options.
Proof.
  induction options as [| x options IH]; intros k H; [discriminate H |].
  cbn [index_of] in H. destruct (String.eqb x s).
  - injection H as <-. cbn. lia.
  - destruct (index_of s options) as [k' |]; [| discriminate H].
    injection H as <-. specialize (IH k' eq_refl). cbn. lia.
Qed.

Lemma kept_in_range (edits held : nat -> @entry T) :
  picks_in_range edits -> picks_in_range held ->
  picks_in_range (kept edits held).
Proof.
  intros He Hh i k. unfold kept. cbn [picked_color].
  destruct (picked_color (edits i)) as [k' |] eqn:E.
  - intro H. injection H as <-. exact (He i k' E).
  - apply Hh.
Qed.

Lemma held_after_in_range (trades : list (@Row T)) :
  picks_in_range (held_after trades).
Proof.
  intros i k. unfold held_after.
  destruct (find (fun t => Trade t =? i) trades) as [r |].
  - cbn [holding picked_color]. apply index_of_lt.
  - intro H. discriminate H.
Qed.

Lemma held_after_drawn (trades : list (@Row T)) (r : Row) :
  NoDup (map Trade trades) -> In r trades ->
  held_after trades (Trade r) = holding r.
Proof.
  intros Hnd Hin. unfold held_after.
  rewrite (find_by_trade trades r Hnd Hin). reflexivity.
Qed.

Lemma held_after_dropped (trades : list (@Row T)) (i : nat) :
  (forall r, In r trades -> Trade r <> i) ->
  held_after trades i = untouched.
Proof.
  intro Hno. unfold held_after.
  destruct (find (fun t => Trade t =? i) trades) as [r |] eqn:E;
    [| reflexivity].
  apply find_some in E. destruct E as (Hin & He).
  apply Nat.eqb_eq in He. destruct (Hno r Hin He).
Qed.

Lemma merged_trades (saved : list (@Row T)) (ui : nat -> entry)
    (l : list nat) :
  map Trade (map (merged_row saved ui) l) = l.
Proof.
  rewrite map_map. cbn [merged_row Trade]. apply map_id.
Qed.

End BrowserFacts.

(** C6, where the code departs from it: a snapshot loaded into a running
    session does not bring back the inputs of a trade whose widgets were
    already drawn.  A session is opened (the form draws trade 1, all
    0.0), the snapshot of the two trades (200, 0, 0) and (100, 150, 0) is
    uploaded, and the form runs again with nothing edited: trade 2, drawn
    for the first time, takes the saved 100, 150, 0, but the widgets of
    trade 1 keep the 0.0 they hold.  The rebuilt list is not the saved
    one: its effective investment is 100 and its total ROI -50, where the
    saved list gives 300 and about -83.3. *)
Theorem reload_keeps_drawn_widgets
    (snapshot : Type) (json_load : snapshot -> result (@pyobj float))
    (uploaded_file : snapshot) :
  json_load uploaded_file = Ok (trades_to_py two_saved) ->
  exists st1 b1 st2 b2 st3 b3,
    script_run json_load new_browser None untouched_form None
    = Ok (st1, None, b1) /\
    script_run json_load b1 None untouched_form (Some uploaded_file)
    = Ok (st2, Some success, b2) /\
    loaded_trades (session b2) = Some (trades_to_py two_saved) /\
    script_run json_load b2 None untouched_form (Some uploaded_file)
    = Ok (st3, Some success, b3) /\
    map Trade (trades st3) = [2; 1] /\
    map inputs_of (trades st3)
    = [(100%float, 150%float, 0%float); (0%float, 0%float, 0%float)] /\
    map inputs_of two_saved
    = [(100%float, 150%float, 0%float); (200%float, 0%float, 0%float)] /\
    effective_invested (trades st3) = 100%float /\
    effective_invested two_saved = 300%float /\
    total_roi (trades st3) = PyFloat (-50)%float /\
    total_roi (trades st3) <> total_roi two_saved.
Proof.
  intro H. do 6 eexists.
  split; [apply script_run_idle; vm_compute; reflexivity |].
  split; [eapply script_run_upload; [vm_compute; reflexivity | exact H] |].
  split; [reflexivity |].
  split; [eapply script_run_upload; [vm_compute; reflexivity | exact H] |].
  split; [reflexivity |].
  split; [vm_compute; reflexivity |].
  split; [vm_compute; reflexivity |].
  split; [vm_compute; reflexivity |].
  split; [vm_compute; reflexivity |].
  split; [vm_compute; reflexivity |].
  float_neq.
Qed.

(** The theorem at work on the plain codec. *)
Lemma reload_keeps_drawn_widgets_witness :
  plain_load (trades_to_py two_saved) = Ok (trades_to_py two_saved) /\
  exists st1 b1 st2 b2 st3 b3,
    script_run plain_load new_browser None untouched_form None
    = Ok (st1, None, b1) /\
    script_run plain_load b1 None untouched_form
      (Some (trades_to_py two_saved))
    = Ok (st2, Some success, b2) /\
    loaded_trades (session b2) = Some (trades_to_py two_saved) /\
    script_run plain_load b2 None untouched_form
      (Some (trades_to_py two_saved))
    = Ok (st3, Some success, b3) /\
    map Trade (trades st3) = [2; 1] /\
    map inputs_of (trades st3)
    = [(100%float, 150%float, 0%float); (0%float, 0%float, 0%float)] /\
    map inputs_of two_saved
    = [(100%float, 150%float, 0%float); (200%float, 0%float, 0%float)] /\
    effective_invested (trades st3) = 100%float /\
    effective_invested two_saved = 300%float /\
    total_roi (trades st3) = PyFloat (-50)%float /\
    total_roi (trades st3) <> total_roi two_saved.
Proof.
  split; [reflexivity |].
  apply (reload_keeps_drawn_widgets _ plain_load (trades_to_py two_saved)).
  reflexivity.
Defined.



Section StableFacts.

Context {T : Type} {N : Number T}.

Lemma untouched_in_range : picks_in_range (fun _ : nat => @untouched T).
Proof. intros i k H. discriminate H. Qed.

Lemma number_input_held (value : pyobj) (typed : option T) (x : T) :
  number_input value typed = Ok x -> number_input value (Some x) = Ok x.
Proof.
  unfold number_input. destruct value as [| | [z | y] | | |]; intro H;
    try discriminate H. reflexivity.
Qed.

Lemma selectbox_held (index : nat) (picked : option nat) (c : string) :
  selectbox colors index picked = Ok c ->
  selectbox colors index (index_of c colors) = Ok c.
Proof.
  intro H. apply selectbox_in in H.
  destruct (index_of_nth _ _ H) as (k & Hk & Hnth).
  unfold selectbox. rewrite Hk, Hnth. reflexivity.
Qed.

(** A widget that holds the value it returned returns it again. *)
Lemma form_body_stable (prev_trades : pyobj) (ui : nat -> entry) (i : nat)
    (acc acc' : form_state) :
  form_body prev_trades ui i acc = Ok acc' ->
  exists r,
    trades acc' = trades acc ++ [r] /\
    forall ui', ui' i = holding r ->
                form_body prev_trades ui' i acc = Ok acc'.
Proof.
  unfold form_body. intro H.
  bind_inv H. bind_inv H. bind_inv H. bind_inv H. bind_inv H.
  bind_inv H. bind_inv H. bind_inv H. bind_inv H.
  injection H as <-.
  exists {| Trade := i; Buy := a1; Sell := a3; Fee := a5;
            Profit := profit_of a1 a3 a5;
            ROI := roi_of a1 (profit_of a1 a3 a5);
            Total_Return := total_return_of a3 a5; Color := a7 |}.
  split; [reflexivity |]. intros ui' Hui.
  rewrite Ha, Hui.
  cbn [bind holding typed_buy typed_sell typed_fee picked_color
       Buy Sell Fee Color].
  rewrite Ha0. cbn [bind].
  rewrite (number_input_held _ _ _ Ha1). cbn [bind].
  rewrite Ha2. cbn [bind].
  rewrite (number_input_held _ _ _ Ha3). cbn [bind].
  rewrite Ha4. cbn [bind].
  rewrite (number_input_held _ _ _ Ha5). cbn [bind].
  rewrite Ha6. cbn [bind].
  rewrite (selectbox_held _ _ _ Ha7). reflexivity.
Qed.

Lemma form_loop_stable (prev_trades : pyobj) (ui : nat -> entry) (n : nat) :
  forall acc st : form_state,
    form_loop prev_trades ui n acc = Ok st ->
    (exists rows, trades st = trades acc ++ rows) /\
    forall ui',
      (forall r, In r (trades st) -> ui' (Trade r) = holding r) ->
      form_loop prev_trades ui' n acc = Ok st.
Proof.
  induction n as [| n IH]; intros acc st H.
  - cbn in H. injection H as <-. split.
    + exists []. rewrite app_nil_r. reflexivity.
    + intros. reflexivity.
  - cbn [form_loop] in H. bind_inv H.
    pose proof (form_body_ok _ _ _ _ _ Ha) as (r0 & Hacc & Hi & _).
    destruct (form_body_stable _ _ _ _ _ Ha) as (r & Hr & Hstable).
    destruct (IH _ _ H) as ((rows & Hrows) & Hloop).
    assert (Hr0 : r0 = r).
    { rewrite Hacc in Hr. cbn [trades] in Hr.
      apply app_inv_head in Hr. injection Hr as Hr. exact Hr. }
    subst r0. split.
    + exists (r :: rows). rewrite Hrows, Hr, <- app_assoc. reflexivity.
    + intros ui' Hui. cbn [form_loop].
      rewrite (Hstable ui').
      * cbn [bind]. apply Hloop. exact Hui.
      * rewrite <- Hi. apply Hui. rewrite Hrows, Hr.
        apply in_or_app. left. apply in_or_app. right. left. reflexivity.
Qed.

Lemma trade_form_stable (ss ss' : session_state) (typed_count : option nat)
    (ui : nat -> entry) (st : form_state) :
  trade_form ss typed_count ui = Ok (st, ss') ->
  forall ui',
    (forall r, In r (trades st) -> ui' (Trade r) = holding r) ->
    trade_form ss' typed_count ui' = Ok (st, ss').
Proof.
  unfold trade_form. intro H. bind_inv H. bind_inv H.
  injection H as <- <-. intros ui' Hui.
  cbn [loaded_trades]. rewrite Ha. cbn [bind].
  destruct (form_loop_stable _ _ _ _ _ Ha0) as (_ & Hloop).
  rewrite (Hloop ui' Hui). reflexivity.
Qed.

Lemma kept_held (trades : list (@Row T)) (r : Row) :
  NoDup (map Trade trades) -> In r trades ->
  kept (fun _ => untouched) (held_after trades) (Trade r) = holding r.
Proof.
  intros Hnd Hin. unfold kept.
  rewrite (held_after_drawn trades r Hnd Hin). reflexivity.
Qed.

Lemma merged_row_held (saved : list (@Row T)) (ui : nat -> entry) (r : Row) :
  NoDup (map Trade saved) -> In r saved -> derived r ->
  In (Color r) colors -> ui (Trade r) = holding r ->
  merged_row saved ui (Trade r) = r.
Proof.
  intros Hnd Hin (Hp & Hr & Ht) Hc Hui. unfold merged_row.
  rewrite (find_by_trade saved r Hnd Hin), Hui.
  destruct (index_of_nth _ _ Hc) as (k & Hk & Hnth).
  cbn [option_map holding typed_buy typed_sell typed_fee picked_color
       widget_value widget_color].
  rewrite Hk. cbn [widget_color].
  rewrite (nth_error_nth _ _ "default" Hnth).
  rewrite <- Hp, <- Hr, <- Ht. destruct r; reflexivity.
Qed.

Lemma merged_row_new (saved : list (@Row T)) (ui : nat -> entry) (i : nat) :
  (forall r, In r saved -> Trade r <> i) ->
  ui i = untouched ->
  inputs_of (merged_row saved ui i) = (of_int 0, of_int 0, of_int 0) /\
  Color (merged_row saved ui i) = "default".
Proof.
  intros Hno Hui. unfold merged_row. rewrite Hui.
  destruct (find (fun t => Trade t =? i) saved) as [r |] eqn:E.
  - apply find_some in E. destruct E as (Hin & He).
    apply Nat.eqb_eq in He. destruct (Hno r Hin He).
  - split; reflexivity.
Qed.

End StableFacts.

(** X3: a form reopened from its own snapshot, in the session that built
    it.  After a run that built a form, its snapshot is uploaded: the run
    that takes the upload, with nothing edited, rebuilds the same form.
    When the user then types another count [m], the form holds the trades
    1 to [m]: every saved trade numbered at most [m] is there unchanged,
    derived keys included; the trades numbered above [m] are dropped;
    every trade numbered above the snapshot's length is new, with 0.0 in
    its three fields and the colour "default". *)
Theorem resize_in_saving_session
    {T : Type} {N : Number T} (snapshot : Type)
    (json_load : snapshot -> result (@pyobj T)) (b0 b1 : browser)
    (typed_count : option nat) (edits : nat -> entry) (st0 : form_state)
    (msg0 : option message) (uploaded_file : snapshot) (m : nat) :
  script_run json_load b0 typed_count edits None = Ok (st0, msg0, b1) ->
  json_load uploaded_file = Ok (trades_to_py (trades st0)) ->
  Forall within_bounds (trades st0) ->
  1 <= List.length (trades st0) <= 50 ->
  1 <= m <= 50 ->
  exists b2 st b3,
    script_run json_load b1 typed_count (fun _ => untouched)
      (Some uploaded_file) = Ok (st0, Some success, b2) /\
    script_run json_load b2 (Some m) (fun _ => untouched)
      (Some uploaded_file) = Ok (st, Some success, b3) /\
    map Trade (trades st) = rev (seq 1 m) /\
    (forall r, In r (trades st0) -> Trade r <= m -> In r (trades st)) /\
    (forall r,
       In r (trades st) -> Trade r <= List.length (trades st0) ->
       In r (trades st0)) /\
    (forall r,
       In r (trades st) -> List.length (trades st0) < Trade r ->
       inputs_of r = (of_int 0, of_int 0, of_int 0) /\
       Color r = "default").
Proof.
  intros H1 Hf Hb Hlen Hm.
  unfold script_run in H1. bind_inv H1. destruct a as (st', ss').
  cbn [fst snd] in H1. injection H1 as <- _ <-.
  pose proof (trade_form_ok _ _ _ _ _ Ha) as (Hidx & Hd & Hc).
  assert (Hnd : NoDup (map Trade (trades st')))
    by (rewrite Hidx; apply NoDup_rev, seq_NoDup).
  assert (Hrange : forall r, In r (trades st') ->
                     1 <= Trade r <= List.length (trades st')).
  { intros r Hin. apply (in_map Trade) in Hin.
    rewrite Hidx, <- in_rev in Hin. apply in_seq in Hin. lia. }
  set (ui' := kept (fun _ => untouched) (held_after (trades st'))).
  assert (Hheld : forall r, In r (trades st') -> ui' (Trade r) = holding r)
    by (intros r Hin; apply kept_held; assumption).
  assert (Hnew : forall i, (forall r, In r (trades st') -> Trade r <> i) ->
                           ui' i = untouched).
  { intros i Hno. unfold ui', kept.
    rewrite (held_after_dropped _ i Hno). reflexivity. }
  pose proof (trade_form_stable _ _ _ _ _ Ha ui' Hheld) as Hrun2.
  destruct (reloaded_form_prefill
              {| loaded_trades := Some (trades_to_py (trades st'));
                 session_trades := session_trades ss' |}
              (trades st') (Some m) ui' eq_refl Hc Hb Hlen)
    as (st & Hrun3 & Hst & _).
  { intros n Hn. injection Hn as <-. exact Hm. }
  { apply kept_in_range;
      [apply untouched_in_range | apply held_after_in_range]. }
  eexists. exists st. eexists.
  split; [eapply script_run_upload; [exact Hrun2 | exact Hf] |].
  split; [eapply script_run_upload; [exact Hrun3 | exact Hf] |].
  cbn [count_input] in Hst. rewrite Hst. rewrite Forall_forall in Hd, Hc.
  split; [apply merged_trades |]. split; [| split].
  - intros r Hin Hle.
    rewrite <- (merged_row_held (trades st') ui' r Hnd Hin (Hd r Hin)
                  (Hc r Hin) (Hheld r Hin)).
    apply in_map. rewrite <- in_rev. apply in_seq.
    specialize (Hrange r Hin). lia.
  - intros r Hin Hle. apply in_map_iff in Hin.
    destruct Hin as (i & <- & Hi). cbn [merged_row Trade] in Hle.
    rewrite <- in_rev in Hi. apply in_seq in Hi.
    assert (Hin : In i (map Trade (trades st')))
      by (rewrite Hidx, <- in_rev; apply in_seq; lia).
    apply in_map_iff in Hin. destruct Hin as (r & <- & Hin).
    rewrite (merged_row_held (trades st') ui' r Hnd Hin (Hd r Hin)
               (Hc r Hin) (Hheld r Hin)).
    exact Hin.
  - intros r Hin Hlt. apply in_map_iff in Hin.
    destruct Hin as (i & <- & _). cbn [merged_row Trade] in Hlt.
    assert (Hno : forall r, In r (trades st') -> Trade r <> i).
    { intros r Hin He. specialize (Hrange r Hin). lia. }
    apply merged_row_new; [exact Hno | apply Hnew; exact Hno].
Qed.

(** The theorem at work on the two-trade form, reopened with three
    trades. *)
Lemma resize_in_saving_session_witness :
  exists st0 msg0 b1,
    script_run plain_load new_browser (Some 2) spec_two_trades None
    = Ok (st0, msg0, b1) /\
    exists b2 st b3,
      script_run plain_load b1 (Some 2) (fun _ => untouched)
        (Some (trades_to_py (trades st0))) = Ok (st0, Some success, b2) /\
      script_run plain_load b2 (Some 3) (fun _ => untouched)
        (Some (trades_to_py (trades st0))) = Ok (st, Some success, b3) /\
      map Trade (trades st) = rev (seq 1 3) /\
      (forall r, In r (trades st0) -> Trade r <= 3 -> In r (trades st)) /\
      (forall r,
         In r (trades st) -> Trade r <= List.length (trades st0) ->
         In r (trades st0)) /\
      (forall r,
         In r (trades st) -> List.length (trades st0) < Trade r ->
         inputs_of r = (of_int 0, of_int 0, of_int 0) /\
         Color r = "default").
Proof.
  do 3 eexists. split; [apply script_run_idle; vm_compute; reflexivity |].
  eapply (resize_in_saving_session _ plain_load new_browser _ (Some 2)
            spec_two_trades _ None _ 3).
  - apply script_run_idle. vm_compute. reflexivity.
  - reflexivity.
  - repeat constructor.
  - cbn. lia.
  - lia.
Defined.
